(** * Sample-paper API: a shallow embedding of the request handlers

    The program is a FastAPI service (routes/paper_routes.py) over a MongoDB
    database, a Redis cache and pydantic models (models/paper_model.py).
    This file embeds the models, the response envelope (helper/helper.py)
    and the seven handlers, and states the specification's claims about them.

    Python values are the JSON fragment the handlers exchange; dictionaries
    are finite maps (Python compares dictionaries without regard to order).
    JSON numbers with a fraction or an exponent are not represented.
    Handlers run in a state-and-exception monad over the database, the
    cache, the scheduled background jobs and a trace of the calls made to
    the two stores.  What the libraries decide (pydantic's conversions, the
    binding of request parameters by FastAPI, the filters of MongoDB) is
    written out where it is used; what the sources do not determine (the
    extraction module, the identifiers [uuid.uuid4()] returns, the clock) is
    a parameter. *)

From stdpp Require Import gmap strings list numbers.

Set Warnings "-register-all".

(** ** Python values *)

Inductive value : Type :=
| VNone
| VBool (b : bool)
| VInt (z : Z)
| VStr (s : string)
| VList (l : list value)
| VDict (d : gmap string value).

Abbreviation dict := (gmap string value).

(** ** Exceptions

    [ValidationError] is pydantic's; it is a subclass of [ValueError], as
    [is_ValueError] records.  [RequestValidationError] is what FastAPI raises
    when a request does not bind to the handler's parameters. *)

Inductive exn : Type :=
| HTTPException (status_code : Z) (detail : string)
| RequestValidationError (loc : string)
| ValidationError (loc : string) (msg : string)
| ValueError (msg : string)
| KeyError (key : string)
| Exception (msg : string).

Definition is_ValueError (e : exn) : bool :=
  match e with
  | ValidationError _ _ | ValueError _ => true
  | _ => false
  end.

(** [str(e)] *)
Definition str_exn (e : exn) : string :=
  match e with
  | HTTPException _ detail => detail
  | RequestValidationError loc => loc
  | ValidationError loc msg => loc +:+ ": " +:+ msg
  | ValueError msg => msg
  | KeyError key => key
  | Exception msg => msg
  end.

Inductive result (A : Type) : Type :=
| Ok (a : A)
| Raise (e : exn).
Arguments Ok {A} a.
Arguments Raise {A} e.

#[global] Instance result_ret : MRet result := @Ok.
#[global] Instance result_bind : MBind result :=
  λ A B f m, match m with Ok a => f a | Raise e => Raise e end.
#[global] Instance result_fmap : FMap result :=
  λ A B f m, match m with Ok a => Ok (f a) | Raise e => Raise e end.

Fixpoint traverse {A B : Type} (f : A → result B) (l : list A) : result (list B) :=
  match l with
  | [] => Ok []
  | x :: l => y ← f x; ys ← traverse f l; Ok (y :: ys)
  end.

(** ** pydantic field validation (models/paper_model.py, the annotations)

    A field annotated [int] takes an [int] as it is.  In pydantic's default
    (lax) mode it also converts some other inputs (booleans, numeric strings);
    that table is the library's and is left as a parameter: every statement
    below holds whatever it is.  A [str] field takes strings only. *)

Class LaxInt := lax_int : value → option Z.

Module pydantic.
Section validators.
Context {lax : LaxInt}.

Definition int (loc : string) (v : value) : result Z :=
  match v with
  | VInt z => Ok z
  | _ => match lax_int v with
         | Some z => Ok z
         | None => Raise (ValidationError loc "Input should be a valid integer")
         end
  end.

Definition str (loc : string) (v : value) : result string :=
  match v with
  | VStr s => Ok s
  | _ => Raise (ValidationError loc "Input should be a valid string")
  end.

(** [dict]: any dictionary *)
Definition dict_ (loc : string) (v : value) : result dict :=
  match v with
  | VDict d => Ok d
  | _ => Raise (ValidationError loc "Input should be a valid dictionary")
  end.

(** [float]: the routes never pass one; an [int] is taken as it is *)
Definition float (loc : string) (v : value) : result value :=
  match v with
  | VInt z => Ok (VInt z)
  | _ => Raise (ValidationError loc "Input should be a valid number")
  end.

(** [Optional[T]] *)
Definition Optional {A : Type} (f : string → value → result A)
    (loc : string) (v : value) : result (option A) :=
  match v with
  | VNone => Ok None
  | _ => Some <$> f loc v
  end.

(** [List[T]] *)
Definition List_ {A : Type} (f : string → value → result A)
    (loc : string) (v : value) : result (list A) :=
  match v with
  | VList l => traverse (f loc) l
  | _ => Raise (ValidationError loc "Input should be a valid list")
  end.

(** a field whose type is a model: the input is a dictionary *)
Definition Model {A : Type} (validate : dict → result A)
    (loc : string) (v : value) : result A :=
  match v with
  | VDict d => validate d
  | _ => Raise (ValidationError loc "Input should be a valid dictionary or instance")
  end.

(** a field without a default *)
Definition required {A : Type} (kwargs : dict) (name : string)
    (f : string → value → result A) : result A :=
  match kwargs !! name with
  | Some v => f name v
  | None => Raise (ValidationError name "Field required")
  end.

(** a field with a default, which is not validated *)
Definition optional {A : Type} (kwargs : dict) (name : string)
    (f : string → value → result A) (default : A) : result A :=
  match kwargs !! name with
  | Some v => f name v
  | None => Ok default
  end.

(** a [field_validator]: its [ValueError] becomes a [ValidationError] *)
Definition field_validator (loc : string) (f : string → result string)
    (v : string) : result string :=
  match f v with
  | Ok v => Ok v
  | Raise e => Raise (ValidationError loc ("Value error, " +:+ str_exn e))
  end.

End validators.
End pydantic.

Definition dump_optional {A : Type} (f : A → value) (o : option A) : value :=
  match o with
  | Some a => f a
  | None => VNone
  end.

(** ** models/paper_model.py *)

Module Question.

Record t : Type := mk {
  question : string;
  answer : string;
  type : string;
  question_slug : string;
  reference_id : string;
  hint : option string;
  params : option dict
}.

Definition allowed_types : list string := ["short"; "long"; "multiple_choice"].

Definition validate_question_type (value : string) : result string :=
  if bool_decide (value ∈ allowed_types)
  then Ok value
  else Raise (ValueError "Question type must be one of {'short', 'long', 'multiple_choice'}").

(** the constructor [Question], called with keyword arguments *)
Definition validate (kwargs : dict) : result t :=
  question ← pydantic.required kwargs "question" pydantic.str;
  answer ← pydantic.required kwargs "answer" pydantic.str;
  type ← pydantic.required kwargs "type" pydantic.str
         ≫= pydantic.field_validator "type" validate_question_type;
  question_slug ← pydantic.required kwargs "question_slug" pydantic.str;
  reference_id ← pydantic.required kwargs "reference_id" pydantic.str;
  hint ← pydantic.optional kwargs "hint" (pydantic.Optional pydantic.str) None;
  params ← pydantic.optional kwargs "params" (pydantic.Optional pydantic.dict_) (Some ∅);
  Ok (mk question answer type question_slug reference_id hint params).

(** what every instance the constructor returns satisfies *)
Definition valid (q : t) : Prop := type q ∈ allowed_types.

Definition model_dump (q : t) : dict :=
  {[ "question" := VStr (question q);
     "answer" := VStr (answer q);
     "type" := VStr (type q);
     "question_slug" := VStr (question_slug q);
     "reference_id" := VStr (reference_id q);
     "hint" := dump_optional VStr (hint q);
     "params" := dump_optional VDict (params q) ]}.

End Question.

Module Section_.

Record t : Type := mk {
  marks_per_question : Z;
  type : string;
  questions : list Question.t
}.

Definition allowed_types : list string := ["default"; "custom"].

Definition validate_section_type (value : string) : result string :=
  if bool_decide (value ∈ allowed_types)
  then Ok value
  else Raise (ValueError "Section type must be one of {'default', 'custom'}").

Section validate.
Context {lax : LaxInt}.

Definition validate (kwargs : dict) : result t :=
  marks_per_question ← pydantic.required kwargs "marks_per_question" pydantic.int;
  type ← pydantic.required kwargs "type" pydantic.str
         ≫= pydantic.field_validator "type" validate_section_type;
  questions ← pydantic.required kwargs "questions"
                (pydantic.List_ (pydantic.Model Question.validate));
  Ok (mk marks_per_question type questions).

End validate.

Definition valid (s : t) : Prop :=
  type s ∈ allowed_types ∧ Forall Question.valid (questions s).


Definition model_dump (s : t) : dict :=
  {[ "marks_per_question" := VInt (marks_per_question s);
     "type" := VStr (type s);
     "questions" := VList (VDict ∘ Question.model_dump <$> questions s) ]}.

End Section_.

Module PaperParams.

Record t : Type := mk {
  board : string;
  grade : Z;
  subject : string
}.

Section validate.
Context {lax : LaxInt}.

Definition validate (kwargs : dict) : result t :=
  board ← pydantic.required kwargs "board" pydantic.str;
  grade ← pydantic.required kwargs "grade" pydantic.int;
  subject ← pydantic.required kwargs "subject" pydantic.str;
  Ok (mk board grade subject).

End validate.

Definition model_dump (p : t) : dict :=
  {[ "board" := VStr (board p);
     "grade" := VInt (grade p);
     "subject" := VStr (subject p) ]}.

End PaperParams.

Module SamplePaper.

Record t : Type := mk {
  p_id : option string;
  title : string;
  type : string;
  time : Z;
  marks : Z;
  params : PaperParams.t;
  tags : list string;
  chapters : list string;
  sections : list Section_.t
}.

Definition allowed_types : list string := ["previous_year"; "mock"; "sample"].

Definition validate_paper_type (value : string) : result string :=
  if bool_decide (value ∈ allowed_types)
  then Ok value
  else Raise (ValueError "Paper type must be one of {'previous_year', 'mock', 'sample'}").

Definition model_fields : list string :=
  ["p_id"; "title"; "type"; "time"; "marks"; "params"; "tags"; "chapters"; "sections"].

Section validate.
Context {lax : LaxInt}.

(** the constructor [SamplePaper], called with keyword arguments: keys
    that are not fields are ignored *)
Definition validate (kwargs : dict) : result t :=
  p_id ← pydantic.optional kwargs "p_id" (pydantic.Optional pydantic.str) None;
  title ← pydantic.required kwargs "title" pydantic.str;
  type ← pydantic.required kwargs "type" pydantic.str
         ≫= pydantic.field_validator "type" validate_paper_type;
  time ← pydantic.required kwargs "time" pydantic.int;
  marks ← pydantic.required kwargs "marks" pydantic.int;
  params ← pydantic.required kwargs "params" (pydantic.Model PaperParams.validate);
  tags ← pydantic.required kwargs "tags" (pydantic.List_ pydantic.str);
  chapters ← pydantic.required kwargs "chapters" (pydantic.List_ pydantic.str);
  sections ← pydantic.required kwargs "sections"
               (pydantic.List_ (pydantic.Model Section_.validate));
  Ok (mk p_id title type time marks params tags chapters sections).

End validate.

Definition valid (p : t) : Prop :=
  type p ∈ allowed_types ∧ Forall Section_.valid (sections p).

Definition with_p_id (o : option string) (p : t) : t :=
  mk o (title p) (type p) (time p) (marks p) (params p) (tags p) (chapters p)
     (sections p).




Definition model_dump (p : t) : dict :=
  {[ "p_id" := dump_optional VStr (p_id p);
     "title" := VStr (title p);
     "type" := VStr (type p);
     "time" := VInt (time p);
     "marks" := VInt (marks p);
     "params" := VDict (PaperParams.model_dump (params p));
     "tags" := VList (VStr <$> tags p);
     "chapters" := VList (VStr <$> chapters p);
     "sections" := VList (VDict ∘ Section_.model_dump <$> sections p) ]}.

End SamplePaper.

Module StandardResponse.

Record t : Type := mk {
  code : Z;
  status : string;
  message : string;
  data : value
}.

Definition model_dump (r : t) : dict :=
  {[ "code" := VInt (code r);
     "status" := VStr (status r);
     "message" := VStr (message r);
     "data" := data r ]}.

End StandardResponse.

Module Tasks.

Record t : Type := mk {
  t_id : option string;
  task_status : string;
  extract_data : option string;
  file_path : option string;
  file_type : option string;
  datetime : value;
  model_fields_set : gset string
}.

Definition model_fields : gset string :=
  {[ "t_id"; "task_status"; "extract_data"; "file_path"; "file_type"; "datetime" ]}.

(** The constructor [Tasks], called with keyword arguments.  [now] is what
    the default factory of [datetime] returns at this call. *)
Definition validate (kwargs : dict) (now : value) : result t :=
  t_id ← pydantic.optional kwargs "t_id" (pydantic.Optional pydantic.str) None;
  task_status ← pydantic.required kwargs "task_status" pydantic.str;
  extract_data ← pydantic.optional kwargs "extract_data" (pydantic.Optional pydantic.str) None;
  file_path ← pydantic.optional kwargs "file_path" (pydantic.Optional pydantic.str) None;
  file_type ← pydantic.optional kwargs "file_type" (pydantic.Optional pydantic.str) None;
  datetime ← pydantic.optional kwargs "datetime" pydantic.float now;
  Ok (mk t_id task_status extract_data file_path file_type datetime
        (dom kwargs ∩ model_fields)).

(** [model_dump(exclude=..., exclude_unset=...)] *)
Definition model_dump (exclude : gset string) (exclude_unset : bool) (m : t) : dict :=
  filter (λ kv, (fst kv ∉ exclude) ∧ (exclude_unset = true → fst kv ∈ model_fields_set m))
    ({[ "t_id" := dump_optional VStr (t_id m);
        "task_status" := VStr (task_status m);
        "extract_data" := dump_optional VStr (extract_data m);
        "file_path" := dump_optional VStr (file_path m);
        "file_type" := dump_optional VStr (file_type m);
        "datetime" := datetime m ]} : dict).

End Tasks.

(** ** helper/helper.py *)

Module CustomStandard.

Definition response (code : Z) (status message : string) (data : value) : dict :=
  StandardResponse.model_dump (StandardResponse.mk code status message data).

End CustomStandard.

(** ** The stores

    A MongoDB document is its [_id] and its other fields.  A collection is
    the list of its documents in insertion order; the database maps a
    collection's name to it.  A Redis value is the text [json.dumps] wrote,
    kept as the value it denotes: [json.loads] gives that value back, and
    the text is not empty, so a value found counts as true. *)

Record document : Type := Document {
  _id : N;
  fields : dict
}.

Record json_text : Type := json_dumps { json_loads : value }.

(** the calls made to the two stores, oldest first *)
Inductive event : Type :=
| redis_get (key : string)
| redis_set (key : string) (text : json_text)
| redis_delete (key : string)
| find_one (coll field val : string)
| insert_one (coll : string) (doc : dict)
| update_one (coll field val : string) (set : dict)
| delete_one (coll field val : string).

(** a call [process_Data(file_path, task_id, file_type)] added to the
    request's background tasks *)
Record job : Type := Job {
  job_file_path : string;
  job_task_id : string;
  job_file_type : string
}.

Record state : Type := State {
  db : gmap string (list document);
  redis_client : gmap string json_text;
  next_id : N;
  background_tasks : list job;
  trace : list event
}.

Definition collection (coll : string) (st : state) : list document :=
  default [] (db st !! coll).

Definition io (A : Type) : Type := state → result A * state.

#[global] Instance io_ret : MRet io := λ A a st, (Ok a, st).
#[global] Instance io_bind : MBind io :=
  λ A B f m st,
    match m st with
    | (Ok a, st) => f a st
    | (Raise e, st) => (Raise e, st)
    end.

Definition raise {A : Type} (e : exn) : io A := λ st, (Raise e, st).

Definition lift {A : Type} (r : result A) : io A := λ st, (r, st).

(** [try: body except E as e: handler e], with [caught] saying which
    exceptions are instances of [E] *)
Definition try_except {A : Type} (body : io A) (caught : exn → bool)
    (handler : exn → io A) : io A :=
  λ st,
    match body st with
    | (Raise e, st) => if caught e then handler e st else (Raise e, st)
    | r => r
    end.

Definition record (e : event) (st : state) : state :=
  State (db st) (redis_client st) (next_id st) (background_tasks st) (trace st ++ [e]).

Definition set_collection (coll : string) (docs : list document) (st : state) : state :=
  State (<[coll := docs]> (db st)) (redis_client st) (next_id st)
        (background_tasks st) (trace st).

Definition set_redis (r : gmap string json_text) (st : state) : state :=
  State (db st) r (next_id st) (background_tasks st) (trace st).

Definition set_background_tasks (jobs : list job) (st : state) : state :=
  State (db st) (redis_client st) (next_id st) jobs (trace st).

(** *** MongoDB

    A filter [{field: val}] with a string [val] selects the documents whose
    [field] is [val], or is an array that holds [val].  The operations act on
    the first document selected.  The keys of a [$set] are taken as names of
    top-level fields, and an empty one sets nothing. *)

Definition is_str (val : string) (v : value) : bool :=
  match v with
  | VStr s => bool_decide (s = val)
  | _ => false
  end.

Definition matches (field val : string) (doc : document) : bool :=
  match fields doc !! field with
  | Some (VList l) => existsb (is_str val) l
  | Some v => is_str val v
  | None => false
  end.

Fixpoint update_first (field val : string) (set : dict) (docs : list document)
    : list document :=
  match docs with
  | [] => []
  | doc :: docs =>
      if matches field val doc
      then Document (_id doc) (set ∪ fields doc) :: docs
      else doc :: update_first field val set docs
  end.

Fixpoint delete_first (field val : string) (docs : list document)
    : list document :=
  match docs with
  | [] => []
  | doc :: docs =>
      if matches field val doc then docs else doc :: delete_first field val docs
  end.

Module mongo.

Record InsertOneResult : Type := { inserted_id : option N }.
Record DeleteResult : Type := { deleted_count : Z }.

Definition find_one (coll field val : string) : io (option document) :=
  λ st, (Ok (List.find (matches field val) (collection coll st)),
         record (find_one coll field val) st).

Definition insert_one (coll : string) (doc : dict) : io InsertOneResult :=
  λ st,
    let oid := next_id st in
    let st := set_collection coll (collection coll st ++ [Document oid doc]) st in
    (Ok {| inserted_id := Some oid |},
     record (insert_one coll doc)
       (State (db st) (redis_client st) (N.succ oid) (background_tasks st) (trace st))).

(** [update_one(filter, {"$set": set})] *)
Definition update_one (coll field val : string) (set : dict) : io unit :=
  λ st, (Ok (),
         record (update_one coll field val set)
           (set_collection coll (update_first field val set (collection coll st)) st)).

Definition delete_one (coll field val : string) : io DeleteResult :=
  λ st,
    let docs := collection coll st in
    (Ok {| deleted_count := if existsb (matches field val) docs then 1 else 0 |},
     record (delete_one coll field val)
       (set_collection coll (delete_first field val docs) st)).

End mongo.

(** *** Redis *)

Module redis.

Definition get (key : string) : io (option json_text) :=
  λ st, (Ok (redis_client st !! key), record (redis_get key) st).

Definition set (key : string) (text : json_text) : io unit :=
  λ st, (Ok (), record (redis_set key text)
                  (set_redis (<[key := text]> (redis_client st)) st)).

Definition delete (key : string) : io unit :=
  λ st, (Ok (), record (redis_delete key)
                  (set_redis (delete key (redis_client st)) st)).

End redis.

(** [BackgroundTasks.add_task] *)
Definition add_task (j : job) : io unit :=
  λ st, (Ok (), set_background_tasks (background_tasks st ++ [j]) st).

(** ** ai_models/ai_api_integration/geminiApi.py

    The module is not part of the sources; its three functions are
    parameters.  Each returns a value or raises. *)

Class geminiApi : Type := {
  store_file_in_local_dir : string → string → result string;
  determine_file_type : string → result string;
  get_raw_data : string → string → result value
}.

(** [str.upper], on ASCII letters *)
Definition upper_ascii (c : Ascii.ascii) : Ascii.ascii :=
  let n := Ascii.nat_of_ascii c in
  if bool_decide (97 ≤ n ≤ 122)%nat then Ascii.ascii_of_nat (n - 32) else c.

Fixpoint upper (s : string) : string :=
  match s with
  | EmptyString => EmptyString
  | String c s => String (upper_ascii c) (upper s)
  end.

(** ** routes/paper_routes.py *)

Inductive response : Type :=
| JSONResponse (content : value).

(** An instance of [SamplePaper] as the handler of PUT holds it: its
    attribute dictionary, a nested model being kept as its own dump.
    Assignment does not validate (the model does not set
    [validate_assignment]) and [model_dump] serialises whatever the
    attributes hold, without validating.  [hasattr] is taken on the fields:
    the methods a model inherits are attributes too, and a patch with a key
    of such a name is outside what is modelled. *)
Abbreviation object := (gmap string value).

Definition hasattr (o : object) (name : string) : bool :=
  bool_decide (name ∈ SamplePaper.model_fields).

Definition setattr (o : object) (name : string) (v : value) : object :=
  <[name := v]> o.

Definition model_dump (o : object) : result dict := Ok o.

Section routes.
Context {lax : LaxInt} {api : geminiApi}.

(** [uuid4] is what [uuid.uuid4()] returns at this call, as a string. *)
Definition create_paper (uuid4 : string) (paper : SamplePaper.t) : io response :=
  let paper_dict := SamplePaper.model_dump paper in
  let paper_dict := <["p_id" := VStr uuid4]> paper_dict in
  result ← mongo.insert_one "papers" paper_dict;
  match mongo.inserted_id result with
  | Some _ =>
      mret (JSONResponse (VDict (CustomStandard.response 200 "success"
              "Sample paper created successfully"
              (VDict {[ "paper_id" := default VNone (paper_dict !! "p_id") ]}))))
  | None => raise (HTTPException 500 "Failed to create sample paper")
  end.

Definition get_paper (p_id : string) : io response :=
  cached_paper ← redis.get p_id;
  match cached_paper with
  | Some cached_paper =>
      let cached_paper_data := json_loads cached_paper in
      mret (JSONResponse (VDict (CustomStandard.response 200 "success"
              "Paper retrieved from cache" cached_paper_data)))
  | None =>
      paper ← mongo.find_one "papers" "p_id" p_id;
      match paper with
      | Some paper =>
          let paper := fields paper in
          redis.set p_id (json_dumps (VDict paper));;
          mret (JSONResponse (VDict (CustomStandard.response 200 "success"
                  "Paper retrieved from database" (VDict paper))))
      | None => raise (HTTPException 404 "Paper not found")
      end
  end.

Definition update_paper (p_id : string) (paper : dict) : io response :=
  existing_paper ← mongo.find_one "papers" "p_id" p_id;
  match existing_paper with
  | None => raise (HTTPException 404 "Paper not found")
  | Some existing_paper =>
      current_paper ← lift (SamplePaper.model_dump <$>
                              SamplePaper.validate (fields existing_paper));
      let current_paper : object :=
        map_fold (λ field value current_paper,
                    if hasattr current_paper field
                    then setattr current_paper field value
                    else current_paper)
                 current_paper paper in
      updated_paper ← try_except (lift (model_dump current_paper)) is_ValueError
                        (λ e, raise (HTTPException 422 (str_exn e)));
      mongo.update_one "papers" "p_id" p_id paper;;
      redis.set p_id (json_dumps (VDict updated_paper));;
      mret (JSONResponse (VDict (CustomStandard.response 200 "success"
              "Paper updated successfully" (VDict updated_paper))))
  end.

Definition delete_paper (paper_id : string) : io response :=
  result ← mongo.delete_one "papers" "p_id" paper_id;
  if bool_decide (mongo.deleted_count result = 0%Z)
  then raise (HTTPException 404 "Paper not found")
  else
    redis.delete paper_id;;
    mret (JSONResponse (VDict (CustomStandard.response 200 "success"
            "Paper deleted successfully" VNone))).

(** [now] is what the default factory of [Tasks.datetime] returns in the
    branch that is taken. *)
Definition process_Data (now : value) (file_path task_id file_type : string) : io () :=
  try_except
    (extract_data ← lift (get_raw_data file_path file_type);
     task ← lift (Tasks.validate {[ "task_status" := VStr "completed";
                                    "extract_data" := extract_data ]} now);
     mongo.update_one "Tasks" "t_id" task_id (Tasks.model_dump ∅ true task))
    (λ _, true)
    (λ e,
     task ← lift (Tasks.validate {[ "task_status" := VStr "failed";
                                    "extract_data" :=
                                      VDict {[ "error" := VStr (str_exn e) ]} ]} now);
     mongo.update_one "Tasks" "t_id" task_id (Tasks.model_dump ∅ true task)).

Definition extract_text (uuid4 : string) (now : value)
    (filename file_content : string) : io response :=
  let task_id := uuid4 in
  file_path ← lift (store_file_in_local_dir file_content filename);
  file_type ← lift (determine_file_type filename);
  task ← lift (Tasks.validate {[ "t_id" := VStr task_id;
                                 "task_status" := VStr "processing";
                                 "file_path" := VStr file_path;
                                 "file_type" := VStr file_type ]} now);
  mongo.insert_one "Tasks" (Tasks.model_dump {[ "extract_data" ]} false task);;
  add_task (Job file_path task_id file_type);;
  mret (JSONResponse (VDict (CustomStandard.response 202 "processing"
          (upper file_type +:+ " extraction started")
          (VDict {[ "task_id" := VStr task_id ]})))).

Definition get_task_status (task_id : string) : io response :=
  task ← mongo.find_one "Tasks" "t_id" task_id;
  match task with
  | Some task =>
      match fields task !! "task_status" with
      | Some status =>
          mret (JSONResponse (VDict (CustomStandard.response 200 "success"
                  "Task status retrieved" (VDict {[ "status" := status ]}))))
      | None => raise (KeyError "task_status")
      end
  | None => raise (HTTPException 404 "Task not found")
  end.

End routes.

(** ** The application (main.py and the route decorators)

    FastAPI binds a handler's parameters before it calls it: a parameter
    named in the route's path comes from the path, a parameter of a model or
    [dict] type from the JSON body, [File] from the multipart form, and any
    other parameter of a simple type from the query string, where it is
    required when it has no default.  A request that does not bind is
    answered by FastAPI itself. *)

Inductive request : Type :=
| POST_paper (body : value)
| GET_papers (p_id : string)
| PUT_papers (p_id : string) (body : value)
| DELETE_papers (p_id : string) (query : gmap string string)
| POST_extract_text (file : option (string * string))
| GET_tasks (task_id : string).

Section app.
Context {lax : LaxInt} {api : geminiApi}.

Definition app (uuid4 : string) (now : value) (r : request) : io response :=
  match r with
  | POST_paper body =>
      match pydantic.Model SamplePaper.validate "body" body with
      | Ok paper => create_paper uuid4 paper
      | Raise _ => raise (RequestValidationError "body")
      end
  | GET_papers p_id => get_paper p_id
  | PUT_papers p_id body =>
      match pydantic.dict_ "body" body with
      | Ok paper => update_paper p_id paper
      | Raise _ => raise (RequestValidationError "body")
      end
  | DELETE_papers p_id query =>
      match query !! "paper_id" with
      | Some paper_id => delete_paper paper_id
      | None => raise (RequestValidationError "query.paper_id")
      end
  | POST_extract_text file =>
      match file with
      | Some (filename, file_content) => extract_text uuid4 now filename file_content
      | None => raise (RequestValidationError "body.file")
      end
  | GET_tasks task_id => get_task_status task_id
  end.

End app.

(** What the client receives: a handler's [JSONResponse] with status 200,
    an [HTTPException] as its status and [{"detail": detail}], a request that
    did not bind as 422 with the list of errors, anything else raised as a
    bare 500. *)
Record http_response : Type := HTTP {
  http_status : Z;
  http_body : value
}.

Definition send (r : result response) : http_response :=
  match r with
  | Ok (JSONResponse content) => HTTP 200 content
  | Raise (HTTPException status_code detail) =>
      HTTP status_code (VDict {[ "detail" := VStr detail ]})
  | Raise (RequestValidationError loc) =>
      HTTP 422 (VDict {[ "detail" := VList [VDict {[ "loc" := VStr loc ]}] ]})
  | Raise _ => HTTP 500 (VStr "Internal Server Error")
  end.

(** The envelope: a dictionary with exactly the keys code, status, message
    and data, whose code is an integer and whose status and message are
    strings. *)
Definition is_envelope (v : value) : Prop :=
  ∃ (code : Z) (status message : string) (data : value),
    v = VDict {[ "code" := VInt code; "status" := VStr status;
                 "message" := VStr message; "data" := data ]}.

(** what the client is sent for an outcome: a returned response is an
    envelope; a raised exception is rendered without one *)
Definition outcome_shape (r : result response) : Prop :=
  match r with
  | Ok (JSONResponse content) => is_envelope content
  | Raise e =>
      ¬ is_envelope (http_body (send (Raise e)))
      ∧ match e with
        | HTTPException status_code detail =>
            send (Raise e) = HTTP status_code (VDict {[ "detail" := VStr detail ]})
        | RequestValidationError _ => http_status (send (Raise e)) = 422%Z
        | _ => send (Raise e) = HTTP 500 (VStr "Internal Server Error")
        end
  end.
#[global] Arguments outcome_shape : simpl never.

(** ** Executions

    An identifier from [uuid.uuid4()] is new: no document carries it and the
    cache has no entry for it. *)

Definition fresh (uuid4 : string) (st : state) : Prop :=
  (∀ coll docs doc field,
     db st !! coll = Some docs → doc ∈ docs → matches field uuid4 doc = false)
  ∧ redis_client st !! uuid4 = None
  ∧ (∀ j, j ∈ background_tasks st → job_task_id j ≠ uuid4).

Definition initial : state := State ∅ ∅ 0 [] [].

Section executions.
Context {lax : LaxInt} {api : geminiApi}.

(** A step of the service: a request is handled, or a background job that
    was added runs. *)
Inductive step : state → state → Prop :=
| step_request uuid4 now r st :
    fresh uuid4 st →
    step st (app uuid4 now r st).2
| step_background now j jobs1 jobs2 st :
    background_tasks st = jobs1 ++ j :: jobs2 →
    step st (process_Data now (job_file_path j) (job_task_id j) (job_file_type j)
               (set_background_tasks (jobs1 ++ jobs2) st)).2.

Definition reachable (st : state) : Prop := rtc step initial st.

End executions.

(** the document POST /extract/text inserts, and what a successful
    extraction sets in it *)
Definition task_document (task_id file_path file_type : string) (now : value) : dict :=
  {[ "t_id" := VStr task_id; "task_status" := VStr "processing";
     "file_path" := VStr file_path; "file_type" := VStr file_type;
     "datetime" := now ]}.

Definition completed (extract_data : value) : dict :=
  {[ "task_status" := VStr "completed"; "extract_data" := extract_data ]}.

(** the status GET /tasks/task_id reads *)
Definition task_status_of (task_id : string) (st : state) : option value :=
  task ← List.find (matches "t_id" task_id) (collection "Tasks" st);
  fields task !! "task_status".

(** ** Payloads and instances used in the examples *)




Module example.

(** no conversion to [int] *)
Definition strict : LaxInt := λ _, None.

(** text files are extracted, anything else fails *)
Definition api : geminiApi := {|
  store_file_in_local_dir file_content filename := Ok ("uploads/" +:+ filename);
  determine_file_type filename :=
    Ok (if bool_decide (filename = "notes.txt") then "text" else "pdf");
  get_raw_data file_path file_type :=
    if bool_decide (file_type = "text")
    then Ok (VStr "extracted text")
    else Raise (Exception "unsupported file")
|}.

Definition question : dict :=
  {[ "question" := VStr "2+2?"; "answer" := VStr "4"; "type" := VStr "short";
     "question_slug" := VStr "q1"; "reference_id" := VStr "r1" ]}.

Definition section : dict :=
  {[ "marks_per_question" := VInt 5; "type" := VStr "default";
     "questions" := VList [VDict question] ]}.

(** the payload of the specification's scenario *)
Definition payload : dict :=
  {[ "title" := VStr "Math Mid-Term"; "type" := VStr "mock";
     "time" := VInt 60; "marks" := VInt 50;
     "params" := VDict {[ "board" := VStr "CBSE"; "grade" := VInt 10;
                          "subject" := VStr "Math" ]};
     "tags" := VList []; "chapters" := VList [VStr "Algebra"];
     "sections" := VList [VDict section] ]}.

Definition paper : SamplePaper.t :=
  SamplePaper.mk None "Math Mid-Term" "mock" 60 50
    (PaperParams.mk "CBSE" 10 "Math") [] ["Algebra"]
    [Section_.mk 5 "default" [Question.mk "2+2?" "4" "short" "q1" "r1" None (Some ∅)]].

(** the state after POST /paper with [payload], which is given the
    identifier p1, and the document it holds *)
Definition stored : state :=
  (app (lax := strict) (api := api) "p1" VNone (POST_paper (VDict payload)) initial).2.

Definition stored_paper : SamplePaper.t := SamplePaper.with_p_id (Some "p1") paper.

Definition stored_document : document :=
  Document 0 (SamplePaper.model_dump stored_paper).

(** the first question of the first section of a record *)
Definition first_question (record : dict) : option dict :=
  match record !! "sections" with
  | Some (VList (VDict section :: _)) =>
      match section !! "questions" with
      | Some (VList (VDict question :: _)) => Some question
      | _ => None
      end
  | _ => None
  end.

End example.

(** What holds of the tasks in every reachable state: each document of the
    collection carries a string as its [t_id], no two scheduled jobs are for
    the same task, and the task of a scheduled job is still being processed. *)
Record tasks_inv (st : state) : Prop := {
  inv_documents :
    Forall (λ doc, ∃ task_id, fields doc !! "t_id" = Some (VStr task_id))
           (collection "Tasks" st);
  inv_jobs : NoDup (job_task_id <$> background_tasks st);
  inv_processing :
    ∀ j, j ∈ background_tasks st →
         task_status_of (job_task_id j) st = Some (VStr "processing")
}.

(** ** Further relations and instances *)

(** [doc'] is [doc] with at most its status and its extracted data changed *)
Definition same_task (doc doc' : document) : Prop :=
  _id doc' = _id doc
  ∧ ∀ name, name ≠ "task_status" → name ≠ "extract_data" →
            fields doc' !! name = fields doc !! name.

Module example_failures.

(** the extraction gives a list of pages, not a text *)
Definition pages : geminiApi := {|
  store_file_in_local_dir file_content filename := Ok ("uploads/" +:+ filename);
  determine_file_type filename := Ok "pdf";
  get_raw_data file_path file_type := Ok (VList [VStr "page 1"; VStr "page 2"])
|}.

(** the scenario payload with a question of an unknown type *)
Definition odd_question : dict := <["type" := VStr "essay"]> example.question.

Definition odd_payload : dict :=
  <["sections" := VList [VDict (<["questions" := VList [VDict odd_question]]>
                                  example.section)]]> example.payload.

(** the state after PUT /papers/p1 with a type outside the three *)
Definition spoiled : state :=
  (app (lax := example.strict) (api := example.api) "u" VNone
     (PUT_papers "p1" (VDict {[ "type" := VStr "bogus" ]})) example.stored).2.

End example_failures.

Module example_renamed.

(** the state after PUT /papers/p1 with the identifier p2 as [p_id] *)
Definition renamed : state :=
  (app (lax := example.strict) (api := example.api) "u" VNone
     (PUT_papers "p1" (VDict {[ "p_id" := VStr "p2" ]})) example.stored).2.

End example_renamed.

(** the constructors raise [ValidationError] and nothing else *)
Definition raises_ValidationError {A : Type} (r : result A) : Prop :=
  match r with
  | Ok _ => True
  | Raise e => ∃ loc msg, e = ValidationError loc msg
  end.


Module example_tasks.

(** the state after POST /extract/text with notes.txt, which is given the
    identifier t1, and the state after its job has run *)
Definition accepted : state :=
  (app (lax := example.strict) (api := example.api) "t1" (VInt 7)
     (POST_extract_text (Some ("notes.txt", "hello"))) initial).2.

Definition finished : state :=
  (process_Data (api := example.api) (VInt 8) "uploads/notes.txt" "t1" "text"
     (set_background_tasks ([] ++ []) accepted)).2.

Definition task : document :=
  Document 0 (task_document "t1" "uploads/notes.txt" "text" (VInt 7)).

Definition finished_task : document :=
  Document 0 (completed (VStr "extracted text") ∪ fields task).

End example_tasks.

(** * Properties *)

(** unfolds the monad and the calls to the stores *)
Ltac run :=
  unfold mbind, mret, io_bind, io_ret, result_bind, result_ret, raise, lift,
    try_except, mongo.find_one, mongo.insert_one, mongo.update_one,
    mongo.delete_one, redis.get, redis.set, redis.delete, add_task in *;
  simpl in *.

(** ** Lists of documents *)

Lemma find_app_new {A : Type} (P : A → bool) (l : list A) (x : A) :
  (∀ y, y ∈ l → P y = false) → P x = true → List.find P (l ++ [x]) = Some x.
Proof.
  intros Hl Hx. induction l as [|y l IH]; simpl.
  - by rewrite Hx.
  - rewrite (Hl y) by left. apply IH. intros z Hz. apply Hl. by right.
Qed.

Lemma find_app_found {A : Type} (P : A → bool) (l l' : list A) (x : A) :
  List.find P l = Some x → List.find P (l ++ l') = Some x.
Proof.
  induction l as [|y l IH]; simpl; [done|]. by destruct (P y).
Qed.


Lemma matches_insert (field val : string) (oid : N) (d : dict) :
  matches field val (Document oid (<[field := VStr val]> d)) = true.
Proof.
  unfold matches. simpl. rewrite lookup_insert_eq. simpl. by apply bool_decide_eq_true.
Qed.

Lemma matches_set (field val : string) (set : dict) (doc : document) :
  set !! field = None →
  matches field val (Document (_id doc) (set ∪ fields doc)) = matches field val doc.
Proof. intros Hset. unfold matches. simpl. by rewrite lookup_union_r. Qed.

Lemma matches_t_id (task_id task_id' : string) (doc : document) :
  fields doc !! "t_id" = Some (VStr task_id') →
  matches "t_id" task_id doc = bool_decide (task_id' = task_id).
Proof. unfold matches. by intros ->. Qed.

Lemma update_first_elem (field val : string) (set : dict) (docs : list document)
    (doc : document) :
  List.find (matches field val) docs = Some doc →
  Document (_id doc) (set ∪ fields doc) ∈ update_first field val set docs.
Proof.
  induction docs as [|d docs IH]; simpl; [done|].
  destruct (matches field val d).
  - intros [= ->]. left.
  - intros Hfind. right. by apply IH.
Qed.


Lemma update_first_same (field val : string) (set : dict) (docs : list document) :
  set !! field = None →
  List.find (matches field val) (update_first field val set docs)
    = (λ doc, Document (_id doc) (set ∪ fields doc))
        <$> List.find (matches field val) docs.
Proof.
  intros Hset. induction docs as [|doc docs IH]; simpl; [done|].
  destruct (matches field val doc) eqn:Hdoc; simpl.
  - by rewrite matches_set, Hdoc.
  - by rewrite Hdoc.
Qed.

(** Setting fields of one task leaves the document found for another. *)
Lemma update_first_other (task_id task_id' : string) (set : dict)
    (docs : list document) :
  Forall (λ doc, ∃ task_id, fields doc !! "t_id" = Some (VStr task_id)) docs →
  task_id ≠ task_id' →
  set !! "t_id" = None →
  List.find (matches "t_id" task_id) (update_first "t_id" task_id' set docs)
    = List.find (matches "t_id" task_id) docs.
Proof.
  intros Hdocs Hne Hset.
  induction Hdocs as [|doc docs [t Ht] _ IH]; simpl; [done|].
  rewrite (matches_t_id task_id' t doc Ht).
  case_bool_decide as Ht'; simpl.
  - rewrite matches_set by done. rewrite (matches_t_id task_id t doc Ht).
    subst t. by rewrite bool_decide_eq_false_2.
  - by rewrite IH.
Qed.

Lemma update_first_documents (task_id : string) (set : dict) (docs : list document) :
  set !! "t_id" = None →
  Forall (λ doc, ∃ task_id, fields doc !! "t_id" = Some (VStr task_id)) docs →
  Forall (λ doc, ∃ task_id, fields doc !! "t_id" = Some (VStr task_id))
         (update_first "t_id" task_id set docs).
Proof.
  intros Hset Hdocs. induction Hdocs as [|doc docs [t Ht] Hdocs IH]; simpl; [done|].
  destruct (matches "t_id" task_id doc).
  - constructor; [|done]. exists t. simpl. by rewrite lookup_union_r.
  - constructor; [by exists t|done].
Qed.


Lemma fresh_collection (uuid4 : string) (st : state) (coll field : string) (doc : document) :
  fresh uuid4 st → doc ∈ collection coll st → matches field uuid4 doc = false.
Proof.
  intros (Hdocs & _ & _) Hdoc. unfold collection in Hdoc.
  destruct (db st !! coll) as [docs|] eqn:Hcoll; simpl in Hdoc.
  - by apply (Hdocs coll docs).
  - by apply elem_of_nil in Hdoc.
Qed.

Lemma fresh_initial (uuid4 : string) : fresh uuid4 initial.
Proof.
  split; [|split].
  - intros coll docs doc field Hcoll.
    change (db initial) with (∅ : gmap string (list document)) in Hcoll.
    by rewrite lookup_empty in Hcoll.
  - apply lookup_empty.
  - intros j Hj. by apply elem_of_nil in Hj.
Defined.

(** ** Validation *)

Section validation.
Context {lax : LaxInt} {api : geminiApi}.

Lemma bind_Ok {A B : Type} (m : result A) (f : A → result B) (b : B) :
  m ≫= f = Ok b ↔ ∃ a, m = Ok a ∧ f a = Ok b.
Proof.
  destruct m as [a|e]; simpl; split.
  - intros Hf. by exists a.
  - by intros (? & [= <-] & ?).
  - done.
  - by intros (? & ? & ?).
Qed.

Lemma traverse_Ok {A B : Type} (f : A → result B) (l : list A) (l' : list B) :
  traverse f l = Ok l' ↔ Forall2 (λ x y, f x = Ok y) l l'.
Proof.
  revert l'. induction l as [|x l IH]; intros l'; simpl.
  - split; [intros [= <-]; constructor | by inversion 1].
  - rewrite bind_Ok. split.
    + intros (y & Hy & Hys). apply bind_Ok in Hys as (ys & Hys & [= <-]).
      constructor; [done | by apply IH].
    + inversion 1 as [|? y ? ys Hy Hys]; subst. exists y. split; [done|].
      apply IH in Hys. by rewrite Hys.
Qed.

Lemma traverse_str (loc : string) (l : list string) :
  traverse (pydantic.str loc) (VStr <$> l) = Ok l.
Proof. apply traverse_Ok. induction l; by constructor. Qed.

Lemma required_Ok {A : Type} (kwargs : dict) (name : string)
    (f : string → value → result A) (a : A) :
  pydantic.required kwargs name f = Ok a ↔ ∃ v, kwargs !! name = Some v ∧ f name v = Ok a.
Proof.
  unfold pydantic.required. destruct (kwargs !! name) as [v|]; split; try done.
  - intros ?. by exists v.
  - by intros (? & [= <-] & ?).
  - by intros (? & ? & ?).
Qed.

Lemma List_Model_Ok {A : Type} (validate : dict → result A) (loc : string)
    (v : value) (l : list A) :
  pydantic.List_ (pydantic.Model validate) loc v = Ok l ↔
    ∃ ds, v = VList (VDict <$> ds) ∧ Forall2 (λ d a, validate d = Ok a) ds l.
Proof.
  split.
  - destruct v as [| | | |vs|]; try done. simpl. rewrite traverse_Ok.
    intros Hvs. cut (∃ ds, vs = VDict <$> ds ∧ Forall2 (λ d a, validate d = Ok a) ds l).
    { intros (ds & -> & ?). by exists ds. }
    induction Hvs as [|v a vs l Hv _ (ds & -> & IH)].
    + by exists [].
    + destruct v as [| | | | |d]; try done. exists (d :: ds). split; [done|by constructor].
  - intros (ds & -> & Hds). simpl. apply traverse_Ok.
    induction Hds; simpl; by constructor.
Qed.

Lemma field_validator_Ok (loc : string) (allowed : list string)
    (f : string → result string) (v w : string) :
  (∀ v w, f v = Ok w ↔ w = v ∧ v ∈ allowed) →
  pydantic.field_validator loc f v = Ok w ↔ w = v ∧ v ∈ allowed.
Proof.
  intros Hf. unfold pydantic.field_validator. rewrite <- Hf.
  by destruct (f v).
Qed.

Lemma validate_question_type_Ok (v w : string) :
  Question.validate_question_type v = Ok w ↔ w = v ∧ v ∈ Question.allowed_types.
Proof.
  unfold Question.validate_question_type.
  case_bool_decide; split; try done; [by intros [= <-] | by intros [-> _] | by intros [_ ?]].
Qed.

Lemma validate_section_type_Ok (v w : string) :
  Section_.validate_section_type v = Ok w ↔ w = v ∧ v ∈ Section_.allowed_types.
Proof.
  unfold Section_.validate_section_type.
  case_bool_decide; split; try done; [by intros [= <-] | by intros [-> _] | by intros [_ ?]].
Qed.

Lemma validate_paper_type_Ok (v w : string) :
  SamplePaper.validate_paper_type v = Ok w ↔ w = v ∧ v ∈ SamplePaper.allowed_types.
Proof.
  unfold SamplePaper.validate_paper_type.
  case_bool_decide; split; try done; [by intros [= <-] | by intros [-> _] | by intros [_ ?]].
Qed.

Lemma Question_validate_Ok (kwargs : dict) (q : Question.t) :
  Question.validate kwargs = Ok q ↔
    pydantic.required kwargs "question" pydantic.str = Ok (Question.question q)
    ∧ pydantic.required kwargs "answer" pydantic.str = Ok (Question.answer q)
    ∧ pydantic.required kwargs "type" pydantic.str
        ≫= pydantic.field_validator "type" Question.validate_question_type
      = Ok (Question.type q)
    ∧ pydantic.required kwargs "question_slug" pydantic.str
      = Ok (Question.question_slug q)
    ∧ pydantic.required kwargs "reference_id" pydantic.str
      = Ok (Question.reference_id q)
    ∧ pydantic.optional kwargs "hint" (pydantic.Optional pydantic.str) None
      = Ok (Question.hint q)
    ∧ pydantic.optional kwargs "params" (pydantic.Optional pydantic.dict_) (Some ∅)
      = Ok (Question.params q).
Proof.
  unfold Question.validate. split.
  - intros Hv.
    repeat (apply bind_Ok in Hv as (? & ? & Hv)).
    injection Hv as <-. simpl. by repeat split.
  - intros (-> & -> & -> & -> & -> & -> & ->). by destruct q.
Qed.

Lemma Question_validate_valid (kwargs : dict) (q : Question.t) :
  Question.validate kwargs = Ok q → Question.valid q.
Proof.
  intros (_ & _ & Hty & _)%Question_validate_Ok.
  apply bind_Ok in Hty as (v & _ & Hty).
  apply (field_validator_Ok _ _ _ _ _ validate_question_type_Ok) in Hty as [Heq ?].
  unfold Question.valid. by rewrite Heq.
Qed.

Lemma Question_validate_model_dump (q : Question.t) :
  Question.valid q → Question.validate (Question.model_dump q) = Ok q.
Proof.
  intros Hq. apply Question_validate_Ok.
  unfold pydantic.required, pydantic.optional.
  repeat split; try reflexivity.
  - change (Question.model_dump q !! "type") with (Some (VStr (Question.type q))).
    simpl. by apply (field_validator_Ok _ _ _ _ _ validate_question_type_Ok).
  - change (Question.model_dump q !! "hint")
      with (Some (dump_optional VStr (Question.hint q))).
    by destruct (Question.hint q).
  - change (Question.model_dump q !! "params")
      with (Some (dump_optional VDict (Question.params q))).
    by destruct (Question.params q).
Qed.

Lemma Section_validate_Ok (kwargs : dict) (s : Section_.t) :
  Section_.validate kwargs = Ok s ↔
    pydantic.required kwargs "marks_per_question" pydantic.int
      = Ok (Section_.marks_per_question s)
    ∧ pydantic.required kwargs "type" pydantic.str
        ≫= pydantic.field_validator "type" Section_.validate_section_type
      = Ok (Section_.type s)
    ∧ pydantic.required kwargs "questions"
        (pydantic.List_ (pydantic.Model Question.validate))
      = Ok (Section_.questions s).
Proof.
  unfold Section_.validate. split.
  - intros Hv.
    repeat (apply bind_Ok in Hv as (? & ? & Hv)).
    injection Hv as <-. simpl. by repeat split.
  - intros (-> & -> & ->). by destruct s.
Qed.

Lemma Section_validate_valid (kwargs : dict) (s : Section_.t) :
  Section_.validate kwargs = Ok s → Section_.valid s.
Proof.
  intros (_ & Hty & Hqs)%Section_validate_Ok. split.
  - apply bind_Ok in Hty as (v & _ & Hty).
    apply (field_validator_Ok _ _ _ _ _ validate_section_type_Ok) in Hty as [Heq ?].
    by rewrite Heq.
  - apply required_Ok in Hqs as (v & _ & Hqs).
    apply List_Model_Ok in Hqs as (ds & _ & Hds).
    induction Hds; constructor; eauto using Question_validate_valid.
Qed.

Lemma Section_validate_model_dump (s : Section_.t) :
  Section_.valid s → Section_.validate (Section_.model_dump s) = Ok s.
Proof.
  intros [Hty Hqs]. apply Section_validate_Ok.
  unfold pydantic.required.
  repeat split; try reflexivity.
  - change (Section_.model_dump s !! "type") with (Some (VStr (Section_.type s))).
    simpl. by apply (field_validator_Ok _ _ _ _ _ validate_section_type_Ok).
  - change (Section_.model_dump s !! "questions")
      with (Some (VList (VDict ∘ Question.model_dump <$> Section_.questions s))).
    apply List_Model_Ok. exists (Question.model_dump <$> Section_.questions s).
    split; [by rewrite <- list_fmap_compose|].
    induction Hqs; simpl; constructor; auto using Question_validate_model_dump.
Qed.

Lemma PaperParams_validate_model_dump (p : PaperParams.t) :
  PaperParams.validate (PaperParams.model_dump p) = Ok p.
Proof. by destruct p. Qed.

Lemma SamplePaper_validate_Ok (kwargs : dict) (p : SamplePaper.t) :
  SamplePaper.validate kwargs = Ok p ↔
    pydantic.optional kwargs "p_id" (pydantic.Optional pydantic.str) None
      = Ok (SamplePaper.p_id p)
    ∧ pydantic.required kwargs "title" pydantic.str = Ok (SamplePaper.title p)
    ∧ pydantic.required kwargs "type" pydantic.str
        ≫= pydantic.field_validator "type" SamplePaper.validate_paper_type
      = Ok (SamplePaper.type p)
    ∧ pydantic.required kwargs "time" pydantic.int = Ok (SamplePaper.time p)
    ∧ pydantic.required kwargs "marks" pydantic.int = Ok (SamplePaper.marks p)
    ∧ pydantic.required kwargs "params" (pydantic.Model PaperParams.validate)
      = Ok (SamplePaper.params p)
    ∧ pydantic.required kwargs "tags" (pydantic.List_ pydantic.str)
      = Ok (SamplePaper.tags p)
    ∧ pydantic.required kwargs "chapters" (pydantic.List_ pydantic.str)
      = Ok (SamplePaper.chapters p)
    ∧ pydantic.required kwargs "sections"
        (pydantic.List_ (pydantic.Model Section_.validate))
      = Ok (SamplePaper.sections p).
Proof.
  unfold SamplePaper.validate. split.
  - intros Hv.
    repeat (apply bind_Ok in Hv as (? & ? & Hv)).
    injection Hv as <-. simpl. by repeat split.
  - intros (-> & -> & -> & -> & -> & -> & -> & -> & ->). by destruct p.
Qed.

Lemma SamplePaper_validate_valid (kwargs : dict) (p : SamplePaper.t) :
  SamplePaper.validate kwargs = Ok p → SamplePaper.valid p.
Proof.
  intros (_ & _ & Hty & _ & _ & _ & _ & _ & Hss)%SamplePaper_validate_Ok. split.
  - apply bind_Ok in Hty as (v & _ & Hty).
    apply (field_validator_Ok _ _ _ _ _ validate_paper_type_Ok) in Hty as [Heq ?].
    by rewrite Heq.
  - apply required_Ok in Hss as (v & _ & Hss).
    apply List_Model_Ok in Hss as (ds & _ & Hds).
    induction Hds; constructor; eauto using Section_validate_valid.
Qed.

Lemma SamplePaper_validate_model_dump (p : SamplePaper.t) :
  SamplePaper.valid p → SamplePaper.validate (SamplePaper.model_dump p) = Ok p.
Proof.
  intros [Hty Hss]. apply SamplePaper_validate_Ok.
  unfold pydantic.required, pydantic.optional.
  repeat split; try reflexivity.
  - change (SamplePaper.model_dump p !! "p_id")
      with (Some (dump_optional VStr (SamplePaper.p_id p))).
    by destruct (SamplePaper.p_id p).
  - change (SamplePaper.model_dump p !! "type") with (Some (VStr (SamplePaper.type p))).
    simpl. by apply (field_validator_Ok _ _ _ _ _ validate_paper_type_Ok).
  - change (SamplePaper.model_dump p !! "params")
      with (Some (VDict (PaperParams.model_dump (SamplePaper.params p)))).
    apply PaperParams_validate_model_dump.
  - change (SamplePaper.model_dump p !! "tags")
      with (Some (VList (VStr <$> SamplePaper.tags p))).
    apply traverse_str.
  - change (SamplePaper.model_dump p !! "chapters")
      with (Some (VList (VStr <$> SamplePaper.chapters p))).
    apply traverse_str.
  - change (SamplePaper.model_dump p !! "sections")
      with (Some (VList (VDict ∘ Section_.model_dump <$> SamplePaper.sections p))).
    apply List_Model_Ok. exists (Section_.model_dump <$> SamplePaper.sections p).
    split; [by rewrite <- list_fmap_compose|].
    induction Hss; simpl; constructor; auto using Section_validate_model_dump.
Qed.

Lemma required_agree {A : Type} (kwargs kwargs' : dict) (name : string)
    (f : string → value → result A) :
  kwargs' !! name = kwargs !! name →
  pydantic.required kwargs' name f = pydantic.required kwargs name f.
Proof. unfold pydantic.required. by intros ->. Qed.

Lemma optional_agree {A : Type} (kwargs kwargs' : dict) (name : string)
    (f : string → value → result A) (default : A) :
  kwargs' !! name = kwargs !! name →
  pydantic.optional kwargs' name f default = pydantic.optional kwargs name f default.
Proof. unfold pydantic.optional. by intros ->. Qed.

End validation.


Section fields.
Context {lax : LaxInt} {api : geminiApi}.

(** The constructor reads nothing but the nine fields. *)
Lemma SamplePaper_validate_agree (kwargs kwargs' : dict) :
  (∀ name, name ∈ SamplePaper.model_fields → kwargs' !! name = kwargs !! name) →
  SamplePaper.validate kwargs' = SamplePaper.validate kwargs.
Proof.
  intros Hagree. unfold SamplePaper.validate.
  rewrite (optional_agree kwargs kwargs' "p_id"),
    (required_agree kwargs kwargs' "title"), (required_agree kwargs kwargs' "type"),
    (required_agree kwargs kwargs' "time"), (required_agree kwargs kwargs' "marks"),
    (required_agree kwargs kwargs' "params"), (required_agree kwargs kwargs' "tags"),
    (required_agree kwargs kwargs' "chapters"),
    (required_agree kwargs kwargs' "sections");
    [done|apply Hagree; unfold SamplePaper.model_fields; set_solver..].
Qed.







End fields.

(** ** The response envelope *)

Section envelope.
Context {lax : LaxInt} {api : geminiApi}.

Lemma response_is_envelope (code : Z) (status message : string) (data : value) :
  is_envelope (VDict (CustomStandard.response code status message data)).
Proof. by exists code, status, message, data. Qed.

Lemma detail_is_not_envelope (v : value) :
  ¬ is_envelope (VDict {[ "detail" := v ]}).
Proof.
  intros (code & status & message & data & Heq).
  apply (f_equal (λ v, match v with VDict d => d !! "code" | _ => None end)) in Heq.
  vm_compute in Heq. discriminate Heq.
Qed.

Lemma raised_is_not_envelope (e : exn) :
  ¬ is_envelope (http_body (send (Raise e))).
Proof.
  destruct e; simpl; try apply detail_is_not_envelope;
    by intros (? & ? & ? & ? & ?).
Qed.

Lemma shape_raise (e : exn) : outcome_shape (Raise e).
Proof. split; [apply raised_is_not_envelope|by destruct e]. Qed.

Lemma shape_response (code : Z) (status message : string) (data : value) :
  outcome_shape (Ok (JSONResponse (VDict (CustomStandard.response code status message data)))).
Proof. apply response_is_envelope. Qed.

(** C6, amended.  Every response a handler returns is the envelope.  A
    failure is not returned but raised, and reaches the client as FastAPI
    renders it: an [HTTPException] as its status with a body that holds the
    detail alone, a request that does not bind as 422, anything else as a bare
    500.  None of these bodies is an envelope. *)
Theorem responses_shape (uuid4 : string) (now : value) (r : request) (st : state) :
  match (app uuid4 now r st).1 with
  | Ok (JSONResponse content) => is_envelope content
  | Raise e =>
      ¬ is_envelope (http_body (send (Raise e)))
      ∧ match e with
        | HTTPException status_code detail =>
            send (Raise e) = HTTP status_code (VDict {[ "detail" := VStr detail ]})
        | RequestValidationError _ => http_status (send (Raise e)) = 422%Z
        | _ => send (Raise e) = HTTP 500 (VStr "Internal Server Error")
        end
  end.
Proof.
  change (outcome_shape (app uuid4 now r st).1).
  destruct r; simpl.
  - destruct body as [| | | | |d]; simpl; try apply shape_raise.
    destruct (SamplePaper.validate d); simpl; [|apply shape_raise].
    unfold create_paper. run. apply shape_response.
  - unfold get_paper. run.
    destruct (redis_client st !! p_id); simpl; [apply shape_response|].
    unfold collection; simpl.
    destruct (List.find _ _); simpl; [apply shape_response|apply shape_raise].
  - destruct body as [| | | | |d]; simpl; try apply shape_raise.
    unfold update_paper. run. unfold collection; simpl.
    destruct (List.find _ _); simpl; [|apply shape_raise].
    destruct (SamplePaper.validate _); simpl; [|apply shape_raise].
    apply shape_response.
  - destruct (query !! "paper_id"); simpl; [|apply shape_raise].
    unfold delete_paper. run. unfold collection; simpl.
    destruct (existsb _ _); simpl; [apply shape_response|apply shape_raise].
  - destruct file as [[filename file_content]|]; simpl; [|apply shape_raise].
    unfold extract_text. run.
    destruct (store_file_in_local_dir _ _); simpl; [|apply shape_raise].
    destruct (determine_file_type _); simpl; [|apply shape_raise].
    apply shape_response.
  - unfold get_task_status. run. unfold collection; simpl.
    destruct (List.find _ _) as [task|]; simpl; [|apply shape_raise].
    destruct (fields task !! "task_status"); simpl; [apply shape_response|apply shape_raise].
Qed.

End envelope.

(** C6 as stated fails: GET /papers/unknown-id on the empty store is answered
    404 with a body that holds a detail and none of the envelope's keys. *)
Lemma not_found_is_not_an_envelope :
  let sent := send (app (lax := example.strict) (api := example.api) "u" VNone
                      (GET_papers "unknown-id") initial).1 in
  sent = HTTP 404 (VDict {[ "detail" := VStr "Paper not found" ]})
  ∧ ¬ is_envelope (http_body sent).
Proof. split; [reflexivity|]. apply detail_is_not_envelope. Qed.

(** ** Creating a paper *)

Section create.
Context {lax : LaxInt} {api : geminiApi}.

Lemma create_paper_run (uuid4 : string) (paper : SamplePaper.t) (st : state) :
  create_paper uuid4 paper st
    = let stored := <["p_id" := VStr uuid4]> (SamplePaper.model_dump paper) in
      (Ok (JSONResponse (VDict (CustomStandard.response 200 "success"
             "Sample paper created successfully"
             (VDict {[ "paper_id" := VStr uuid4 ]})))),
       State (<["papers" := collection "papers" st ++ [Document (next_id st) stored]]> (db st))
             (redis_client st) (N.succ (next_id st)) (background_tasks st)
             (trace st ++ [insert_one "papers" stored])).
Proof. reflexivity. Qed.






End create.




(** ** Reading a paper *)

Section read.
Context {lax : LaxInt} {api : geminiApi}.

(** C4.  GET /papers/p_id reads the cache first.  On a hit it answers the
    cached content, marked as retrieved from cache, and calls nothing else:
    the database is not read.  On a miss it reads the database; a document
    found is written to the cache and answered, marked as retrieved from
    database; if none is found it answers 404 and the cache is left as it
    was.  The database is never written. *)
Theorem get_paper_read_through (uuid4 : string) (now : value) (p_id : string) (st : state) :
  let (r, st') := app uuid4 now (GET_papers p_id) st in
  db st' = db st ∧
  match redis_client st !! p_id with
  | Some cached =>
      r = Ok (JSONResponse (VDict (CustomStandard.response 200 "success"
                "Paper retrieved from cache" (json_loads cached))))
      ∧ trace st' = trace st ++ [redis_get p_id]
      ∧ redis_client st' = redis_client st
  | None =>
      match List.find (matches "p_id" p_id) (collection "papers" st) with
      | Some paper =>
          r = Ok (JSONResponse (VDict (CustomStandard.response 200 "success"
                    "Paper retrieved from database" (VDict (fields paper)))))
          ∧ trace st' = trace st ++ [redis_get p_id; find_one "papers" "p_id" p_id;
                                     redis_set p_id (json_dumps (VDict (fields paper)))]
          ∧ redis_client st' = <[p_id := json_dumps (VDict (fields paper))]> (redis_client st)
      | None =>
          send r = HTTP 404 (VDict {[ "detail" := VStr "Paper not found" ]})
          ∧ trace st' = trace st ++ [redis_get p_id; find_one "papers" "p_id" p_id]
          ∧ redis_client st' = redis_client st
      end
  end.
Proof.
  unfold app, get_paper. run.
  destruct (redis_client st !! p_id) as [cached|]; simpl.
  - done.
  - unfold collection. simpl.
    destruct (List.find _ _) as [paper|]; simpl; rewrite <- ?app_assoc; done.
Qed.

End read.

(** ** Updating a paper *)

(** The loop over the patch assigns the patch's fields and nothing else. *)
Lemma assign_fields (current_paper : object) (paper : dict) :
  map_fold (λ field value current_paper,
              if hasattr current_paper field
              then setattr current_paper field value
              else current_paper)
           current_paper paper
    = filter (λ kv, fst kv ∈ SamplePaper.model_fields) paper ∪ current_paper.
Proof.
  apply (map_fold_weak_ind (λ r m,
    r = filter (λ kv, fst kv ∈ SamplePaper.model_fields) m ∪ current_paper)).
  - by rewrite map_filter_empty, (left_id_L ∅ (∪)).
  - intros field value m r Hfield ->. unfold hasattr, setattr.
    case_bool_decide as Hin.
    + by rewrite map_filter_insert_True, insert_union_l.
    + by rewrite map_filter_insert_not.
Qed.

Lemma filter_fields (patch : dict) :
  (∀ name, is_Some (patch !! name) → name ∈ SamplePaper.model_fields) →
  filter (λ kv, fst kv ∈ SamplePaper.model_fields) patch = patch.
Proof. intros Hpatch. apply map_filter_id. intros name v Hname. by apply Hpatch. Qed.

Section update.
Context {lax : LaxInt} {api : geminiApi}.

Lemma update_paper_run (p_id : string) (patch : dict) (st : state)
    (doc : document) (paper : SamplePaper.t) :
  List.find (matches "p_id" p_id) (collection "papers" st) = Some doc →
  SamplePaper.validate (fields doc) = Ok paper →
  update_paper p_id patch st
    = let merged := filter (λ kv, fst kv ∈ SamplePaper.model_fields) patch
                    ∪ SamplePaper.model_dump paper in
      (Ok (JSONResponse (VDict (CustomStandard.response 200 "success"
             "Paper updated successfully" (VDict merged)))),
       State (<["papers" := update_first "p_id" p_id patch (collection "papers" st)]> (db st))
             (<[p_id := json_dumps (VDict merged)]> (redis_client st))
             (next_id st) (background_tasks st)
             (trace st ++ [find_one "papers" "p_id" p_id;
                           update_one "papers" "p_id" p_id patch;
                           redis_set p_id (json_dumps (VDict merged))])).
Proof.
  intros Hfind Hv. unfold update_paper. run.
  unfold collection at 1. simpl. fold (collection "papers" st).
  rewrite Hfind. simpl. rewrite Hv. simpl. rewrite assign_fields.
  unfold collection at 1. simpl. fold (collection "papers" st).
  unfold record, set_redis, set_collection. simpl. by rewrite <- !app_assoc.
Qed.

(** C1 (the update validates the merged record and answers 422 when it
    violates the schema, persisting nothing).  The handler does not do so.
    For a stored paper whose record validates and a patch of model fields
    whose merge with the stored record fails validation, PUT answers 200 with
    the merged record, writes the patch into the stored document and the
    merged record into the cache: assignment to the model and [model_dump] do
    not validate, so the branch that answers 422 is not reached. *)
Theorem update_paper_does_not_validate (uuid4 : string) (now : value)
    (p_id : string) (patch : dict) (st : state)
    (doc : document) (paper : SamplePaper.t) (e : exn) :
  List.find (matches "p_id" p_id) (collection "papers" st) = Some doc →
  SamplePaper.validate (fields doc) = Ok paper →
  (∀ name, is_Some (patch !! name) → name ∈ SamplePaper.model_fields) →
  SamplePaper.validate (patch ∪ fields doc) = Raise e →
  let updated := app uuid4 now (PUT_papers p_id (VDict patch)) st in
  let merged := patch ∪ SamplePaper.model_dump paper in
  send updated.1
    = HTTP 200 (VDict (CustomStandard.response 200 "success"
                  "Paper updated successfully" (VDict merged)))
  ∧ Document (_id doc) (patch ∪ fields doc) ∈ collection "papers" updated.2
  ∧ redis_client updated.2 !! p_id = Some (json_dumps (VDict merged)).
Proof.
  intros Hfind Hv Hpatch _. unfold app. simpl.
  rewrite (update_paper_run p_id patch st doc paper Hfind Hv). simpl.
  rewrite (filter_fields patch Hpatch).
  split; [done|]. split.
  - unfold collection at 1. simpl. rewrite lookup_insert_eq. simpl.
    by apply update_first_elem.
  - by rewrite lookup_insert_eq.
Qed.


End update.

Lemma stored_find :
  List.find (matches "p_id" "p1") (collection "papers" example.stored)
    = Some example.stored_document.
Proof. vm_compute. reflexivity. Defined.

Lemma stored_validate :
  SamplePaper.validate (lax := example.strict) (fields example.stored_document)
    = Ok example.stored_paper.
Proof. vm_compute. reflexivity. Defined.

Lemma update_paper_does_not_validate_witness :
  let patch : dict := {[ "type" := VStr "bogus" ]} in
  let updated := app (lax := example.strict) (api := example.api) "u" VNone
                   (PUT_papers "p1" (VDict patch)) example.stored in
  let merged := patch ∪ SamplePaper.model_dump example.stored_paper in
  SamplePaper.validate (lax := example.strict) (patch ∪ fields example.stored_document)
    = Raise (ValidationError "type"
        "Value error, Paper type must be one of {'previous_year', 'mock', 'sample'}")
  ∧ send updated.1
      = HTTP 200 (VDict (CustomStandard.response 200 "success"
                    "Paper updated successfully" (VDict merged)))
  ∧ Document 0 merged ∈ collection "papers" updated.2
  ∧ redis_client updated.2 !! "p1" = Some (json_dumps (VDict merged))
  ∧ merged !! "type" = Some (VStr "bogus").
Proof.
  assert (Hinvalid :
    SamplePaper.validate (lax := example.strict)
      ({[ "type" := VStr "bogus" ]} ∪ fields example.stored_document)
    = Raise (ValidationError "type"
        "Value error, Paper type must be one of {'previous_year', 'mock', 'sample'}")).
  { vm_compute. reflexivity. }
  assert (Hpatch : ∀ name, is_Some (({[ "type" := VStr "bogus" ]} : dict) !! name) →
                           name ∈ SamplePaper.model_fields).
  { intros name [v [<- _]%lookup_singleton_Some].
    apply (bool_decide_unpack _). vm_compute. exact I. }
  pose proof (update_paper_does_not_validate (lax := example.strict) (api := example.api)
                "u" VNone "p1" {[ "type" := VStr "bogus" ]} example.stored
                example.stored_document example.stored_paper _
                stored_find stored_validate Hpatch Hinvalid)
    as (Hsent & Hstore & Hcache).
  split; [exact Hinvalid|]. split; [exact Hsent|]. split; [exact Hstore|].
  split; [exact Hcache|]. vm_compute. reflexivity.
Defined.



(** A patch that is valid in every field writes the fields as they were sent
    to the store; the next update writes them to the cache as the model
    serialises them. *)
Lemma update_normalises_cache_only :
  let patch1 : dict := {[ "sections" := VList [VDict example.section] ]} in
  let patch2 : dict := {[ "title" := VStr "Math Final" ]} in
  let updated1 := app (lax := example.strict) (api := example.api) "u" VNone
                    (PUT_papers "p1" (VDict patch1)) example.stored in
  let updated2 := app (lax := example.strict) (api := example.api) "u" VNone
                    (PUT_papers "p1" (VDict patch2)) updated1.2 in
  let got := app (lax := example.strict) (api := example.api) "u" VNone
               (GET_papers "p1") updated2.2 in
  http_status (send updated1.1) = 200%Z
  ∧ http_status (send updated2.1) = 200%Z
  ∧ ∃ (cached record : dict) (oid : N) (cached_question stored_question : dict),
      got.1 = Ok (JSONResponse (VDict (CustomStandard.response 200 "success"
                    "Paper retrieved from cache" (VDict cached))))
      ∧ List.find (matches "p_id" "p1") (collection "papers" got.2)
          = Some (Document oid record)
      ∧ example.first_question cached = Some cached_question
      ∧ example.first_question record = Some stored_question
      ∧ cached_question !! "hint" = Some VNone
      ∧ stored_question !! "hint" = None.
Proof.
  vm_compute. split; [done|]. split; [done|]. eexists _, _, _, _, _. by repeat split.
Qed.

(** A patch may name [p_id]: the stored document then answers to the new
    identifier and the cache to the old one. *)
Lemma update_p_id_moves_document :
  let patch : dict := {[ "p_id" := VStr "p2" ]} in
  let updated := app (lax := example.strict) (api := example.api) "u" VNone
                   (PUT_papers "p1" (VDict patch)) example.stored in
  let got := app (lax := example.strict) (api := example.api) "u" VNone
               (GET_papers "p1") updated.2 in
  http_status (send updated.1) = 200%Z
  ∧ List.find (matches "p_id" "p1") (collection "papers" got.2) = None
  ∧ (∃ record, List.find (matches "p_id" "p2") (collection "papers" got.2)
                 = Some (Document 0 record))
  ∧ ∃ cached : dict,
      got.1 = Ok (JSONResponse (VDict (CustomStandard.response 200 "success"
                    "Paper retrieved from cache" (VDict cached))))
      ∧ cached !! "p_id" = Some (VStr "p2").
Proof.
  vm_compute. split; [done|]. split; [done|]. split; [by eexists|].
  eexists. by split.
Qed.

(** ** Deleting a paper *)

Section delete.
Context {lax : LaxInt} {api : geminiApi}.

(** C5 (DELETE /papers/id deletes the paper named in the path).  The route
    declares the path parameter [p_id] and the handler the parameter
    [paper_id], which FastAPI therefore reads from the query string.  Without
    that query parameter the request is answered 422 and the state is left as
    it was, whatever the path names; with it, the paper it names is the one
    the handler is called for, not the one in the path. *)
Theorem delete_ignores_path_id (uuid4 : string) (now : value) (p_id : string) (st : state) :
  app uuid4 now (DELETE_papers p_id ∅) st
    = (Raise (RequestValidationError "query.paper_id"), st)
  ∧ ∀ (paper_id : string) (query : gmap string string),
      app uuid4 now (DELETE_papers p_id (<["paper_id" := paper_id]> query)) st
        = delete_paper paper_id st.
Proof.
  split; [done|]. intros paper_id query. simpl. by rewrite lookup_insert_eq.
Qed.


End delete.


(** ** Extraction tasks *)

Section tasks.
Context {lax : LaxInt} {api : geminiApi}.

Lemma Tasks_failed_rejected (msg : string) (now : value) :
  Tasks.validate {[ "task_status" := VStr "failed";
                    "extract_data" := VDict {[ "error" := VStr msg ]} ]} now
    = Raise (ValidationError "extract_data" "Input should be a valid string").
Proof. reflexivity. Qed.

(** C2 (a failed extraction is recorded in the task as failed, with the
    description of the failure).  The worker does not record it.  When
    [get_raw_data] raises, the handler of the exception builds [Tasks] with a
    dictionary as [extract_data], a field declared [Optional[str]]; the
    constructor raises, [update_one] is not called and the state is left as it
    was, the task still processing.  The exception is raised in the worker,
    which runs after the response was sent. *)
Theorem process_Data_failure_is_not_recorded
    (now : value) (file_path task_id file_type : string) (e : exn) (st : state) :
  get_raw_data file_path file_type = Raise e →
  process_Data now file_path task_id file_type st
    = (Raise (ValidationError "extract_data" "Input should be a valid string"), st).
Proof.
  intros Hraise. unfold process_Data. run. rewrite Hraise. simpl.
  by rewrite Tasks_failed_rejected.
Qed.

Lemma extract_text_run (uuid4 : string) (now : value) (filename file_content : string)
    (file_path file_type : string) (st : state) :
  store_file_in_local_dir file_content filename = Ok file_path →
  determine_file_type filename = Ok file_type →
  extract_text uuid4 now filename file_content st
    = let task := task_document uuid4 file_path file_type now in
      (Ok (JSONResponse (VDict (CustomStandard.response 202 "processing"
             (upper file_type +:+ " extraction started")
             (VDict {[ "task_id" := VStr uuid4 ]})))),
       State (<["Tasks" := collection "Tasks" st ++ [Document (next_id st) task]]> (db st))
             (redis_client st) (N.succ (next_id st))
             (background_tasks st ++ [Job file_path uuid4 file_type])
             (trace st ++ [insert_one "Tasks" task])).
Proof.
  intros Hpath Htype. unfold extract_text. run. by rewrite Hpath, Htype.
Qed.

Lemma extract_text_raise (uuid4 : string) (now : value) (filename file_content : string)
    (st : state) :
  (∃ e, store_file_in_local_dir file_content filename = Raise e)
  ∨ (∃ e, determine_file_type filename = Raise e) →
  (extract_text uuid4 now filename file_content st).2 = st.
Proof.
  unfold extract_text. run.
  destruct (store_file_in_local_dir file_content filename) as [file_path|e];
    simpl; [|done].
  intros [[e [=]]|[e ->]]. done.
Qed.

Lemma process_Data_run (now : value) (file_path task_id file_type : string) (st : state) :
  process_Data now file_path task_id file_type st
    = match get_raw_data file_path file_type with
      | Ok (VStr _ as extract_data) | Ok (VNone as extract_data) =>
          (Ok (),
           State (<["Tasks" := update_first "t_id" task_id (completed extract_data)
                                 (collection "Tasks" st)]> (db st))
                 (redis_client st) (next_id st) (background_tasks st)
                 (trace st ++ [update_one "Tasks" "t_id" task_id (completed extract_data)]))
      | _ => (Raise (ValidationError "extract_data" "Input should be a valid string"), st)
      end.
Proof.
  unfold process_Data. run.
  destruct (get_raw_data file_path file_type) as [[]|e]; simpl;
    by rewrite ?Tasks_failed_rejected.
Qed.

(** What a step does to the tasks and to the scheduled jobs: nothing, or a
    task is accepted, or a job runs and completes its task or leaves it. *)
Lemma step_effect (st st' : state) :
  step st st' →
  (collection "Tasks" st' = collection "Tasks" st
   ∧ background_tasks st' = background_tasks st)
  ∨ (∃ uuid4 now file_path file_type,
       fresh uuid4 st
       ∧ collection "Tasks" st'
           = collection "Tasks" st
             ++ [Document (next_id st) (task_document uuid4 file_path file_type now)]
       ∧ background_tasks st'
           = background_tasks st ++ [Job file_path uuid4 file_type])
  ∨ (∃ j jobs1 jobs2,
       background_tasks st = jobs1 ++ j :: jobs2
       ∧ background_tasks st' = jobs1 ++ jobs2
       ∧ (collection "Tasks" st' = collection "Tasks" st
          ∨ ∃ extract_data,
              collection "Tasks" st'
                = update_first "t_id" (job_task_id j) (completed extract_data)
                    (collection "Tasks" st))).
Proof.
  destruct 1 as [uuid4 now r st Hfresh|now j jobs1 jobs2 st Hjobs].
  - destruct r as [body|p_id|p_id body|p_id query|file|task_id]; simpl.
    + left. destruct body as [| | | | |kwargs]; try done. simpl.
      destruct (SamplePaper.validate kwargs); [|done].
      rewrite create_paper_run. simpl. split; [|done].
      unfold collection. simpl. by rewrite lookup_insert_ne.
    + left. unfold get_paper. run.
      destruct (redis_client st !! p_id); simpl; [done|].
      unfold collection at 1. simpl. by destruct (List.find _ _).
    + left. destruct body as [| | | | |patch]; try done. simpl.
      unfold update_paper. run.
      unfold collection at 1. simpl.
      destruct (List.find _ _); simpl; [|done].
      destruct (SamplePaper.validate _); simpl; [|done].
      split; [|done]. unfold collection. simpl. by rewrite lookup_insert_ne.
    + left. destruct (query !! "paper_id"); simpl; [|done].
      unfold delete_paper. run. unfold collection at 1. simpl.
      destruct (existsb _ _); simpl; (split; [|done]);
        unfold collection; simpl; by rewrite lookup_insert_ne.
    + destruct file as [[filename file_content]|]; [|by left].
      unfold app.
      destruct (store_file_in_local_dir file_content filename) as [file_path|e] eqn:Hpath;
        [|left; rewrite extract_text_raise; eauto].
      destruct (determine_file_type filename) as [file_type|e] eqn:Htype;
        [|left; rewrite extract_text_raise; eauto].
      right. left. exists uuid4, now, file_path, file_type.
      rewrite (extract_text_run _ _ _ _ file_path file_type) by done. simpl.
      split; [done|]. split; [|done].
      unfold collection at 1. simpl. by rewrite lookup_insert_eq.
    + left. unfold get_task_status. run. unfold collection at 1. simpl.
      destruct (List.find _ _) as [task|]; simpl; [|done].
      by destruct (fields task !! "task_status").
  - right. right. exists j, jobs1, jobs2. split; [done|].
    rewrite process_Data_run.
    destruct (get_raw_data _ _) as [[]|]; simpl; try (split; [done|by left]).
    + split; [done|]. right. exists VNone.
      unfold collection at 1. simpl. by rewrite lookup_insert_eq.
    + split; [done|]. right. eexists (VStr _).
      unfold collection at 1. simpl. by rewrite lookup_insert_eq.
Qed.

Lemma tasks_inv_initial : tasks_inv initial.
Proof.
  split.
  - constructor.
  - constructor.
  - intros j Hj. by apply elem_of_nil in Hj.
Qed.

(** One step changes the status of a task, if at all, from processing to
    completed. *)
Lemma step_status (st st' : state) (task_id : string) (s : value) :
  tasks_inv st → step st st' →
  task_status_of task_id st = Some s →
  task_status_of task_id st' = Some s
  ∨ (s = VStr "processing" ∧ task_status_of task_id st' = Some (VStr "completed")).
Proof.
  intros [Hdocs Hjobs Hprocessing] Hstep Hs.
  apply step_effect in Hstep
    as [[Htasks _]|[(uuid4 & now & fp & ft & Hfresh & Htasks & _)
                   |(j & jobs1 & jobs2 & Hbg & _ & [Htasks|[v Htasks]])]];
    unfold task_status_of in *; rewrite Htasks.
  - by left.
  - left. destruct (List.find _ (collection "Tasks" st)) as [doc|] eqn:Hfind; [|done].
    by rewrite (find_app_found _ _ _ doc).
  - by left.
  - destruct (decide (task_id = job_task_id j)) as [->|Hne].
    + right.
      assert (Hj : j ∈ background_tasks st).
      { rewrite Hbg. apply elem_of_app. right. left. }
      specialize (Hprocessing j Hj). rewrite Hprocessing in Hs.
      injection Hs as <-. split; [done|].
      rewrite update_first_same by done.
      destruct (List.find _ (collection "Tasks" st)) as [doc|]; simpl; [|done].
      by apply lookup_union_Some_l.
    + left. by rewrite update_first_other.
Qed.

Lemma step_tasks_inv (st st' : state) :
  tasks_inv st → step st st' → tasks_inv st'.
Proof.
  intros Hinv Hstep. pose proof Hinv as [Hdocs Hjobs Hprocessing].
  pose proof Hstep
    as [[Htasks Hbg]|[(uuid4 & now & fp & ft & Hfresh & Htasks & Hbg)
                     |(j & jobs1 & jobs2 & Hbg & Hbg' & Htasks)]]%step_effect.
  - split; unfold task_status_of; rewrite ?Htasks, ?Hbg; done.
  - split; unfold task_status_of; rewrite ?Htasks, ?Hbg.
    + apply Forall_app. split; [done|]. constructor; [|done]. by exists uuid4.
    + rewrite fmap_app. apply list.NoDup_app. split; [done|]. split.
      * intros t (j & -> & Hj)%list_elem_of_fmap Ht.
        apply list_elem_of_singleton in Ht. simpl in Ht.
        destruct Hfresh as (_ & _ & Hfresh). by apply (Hfresh j).
      * apply NoDup_singleton.
    + intros j [Hj| ->%list_elem_of_singleton]%elem_of_app.
      * specialize (Hprocessing j Hj). unfold task_status_of in Hprocessing.
        destruct (List.find _ (collection "Tasks" st)) as [doc|] eqn:Hfind; [|done].
        by rewrite (find_app_found _ _ _ doc).
      * simpl. rewrite find_app_new; [done| |apply matches_insert].
        intros doc Hdoc. by apply (fresh_collection uuid4 st "Tasks").
  - rewrite Hbg in Hjobs. rewrite fmap_app, fmap_cons in Hjobs.
    apply list.NoDup_app in Hjobs as (Hjobs1 & Hdisjoint & [Hj Hjobs2]%list.NoDup_cons).
    assert (Hother : ∀ j', j' ∈ jobs1 ++ jobs2 → job_task_id j' ≠ job_task_id j).
    { intros j' [Hj'|Hj']%elem_of_app Heq.
      - apply (Hdisjoint (job_task_id j')); [by apply list_elem_of_fmap_2|].
        rewrite Heq. left.
      - apply Hj. rewrite <- Heq. by apply list_elem_of_fmap_2. }
    assert (Hjobs' : NoDup (job_task_id <$> jobs1 ++ jobs2)).
    { rewrite fmap_app. apply list.NoDup_app. split; [done|]. split; [|done].
      intros t Ht1 Ht2. apply (Hdisjoint t Ht1). by right. }
    assert (Hkept : ∀ j', j' ∈ jobs1 ++ jobs2 → j' ∈ background_tasks st).
    { intros j' [Hj'|Hj']%elem_of_app; rewrite Hbg; apply elem_of_app;
        [by left|by right; right]. }
    destruct Htasks as [Htasks|[v Htasks]];
      (split; unfold task_status_of; rewrite ?Htasks, ?Hbg'; [|done|]).
    + done.
    + intros j' Hj'. by apply Hprocessing, Hkept.
    + by apply update_first_documents.
    + intros j' Hj'. rewrite update_first_other by auto.
      by apply Hprocessing, Hkept.
Qed.

Lemma steps_tasks_inv (st st' : state) : tasks_inv st → rtc step st st' → tasks_inv st'.
Proof. induction 2; eauto using step_tasks_inv. Qed.

Lemma reachable_tasks_inv (st : state) : reachable st → tasks_inv st.
Proof. apply steps_tasks_inv, tasks_inv_initial. Qed.

Lemma steps_status (st st' : state) (task_id : string) (s : value) :
  tasks_inv st → rtc step st st' →
  task_status_of task_id st = Some s →
  task_status_of task_id st' = Some s
  ∨ (s = VStr "processing" ∧ task_status_of task_id st' = Some (VStr "completed")).
Proof.
  intros Hinv Hsteps. revert s Hinv.
  induction Hsteps as [st|st st1 st' Hstep Hsteps IH]; intros s Hinv Hs; [by left|].
  pose proof (step_tasks_inv st st1 Hinv Hstep) as Hinv1.
  destruct (step_status st st1 task_id s Hinv Hstep Hs) as [Hs1|[-> Hs1]].
  - by apply IH.
  - right. split; [done|].
    by destruct (IH _ Hinv1 Hs1) as [?|[[=] _]].
Qed.

(** C3.  In every reachable state: an accepted extraction request inserts a
    task that is processing, with its file path and file type set and no
    extracted data, and schedules its job; over any run the status of a task
    changes at most once, from processing to completed or failed, and after a
    change it stays; while a task is processing, GET /tasks/task_id answers
    processing. *)
Theorem task_lifecycle (st : state) :
  reachable st →
  (∀ uuid4 now filename file_content file_path file_type,
     fresh uuid4 st →
     store_file_in_local_dir file_content filename = Ok file_path →
     determine_file_type filename = Ok file_type →
     let accepted := app uuid4 now (POST_extract_text (Some (filename, file_content))) st in
     accepted.1 = Ok (JSONResponse (VDict (CustomStandard.response 202 "processing"
                        (upper file_type +:+ " extraction started")
                        (VDict {[ "task_id" := VStr uuid4 ]}))))
     ∧ (∃ task,
          List.find (matches "t_id" uuid4) (collection "Tasks" accepted.2) = Some task
          ∧ fields task !! "task_status" = Some (VStr "processing")
          ∧ fields task !! "file_path" = Some (VStr file_path)
          ∧ fields task !! "file_type" = Some (VStr file_type)
          ∧ fields task !! "extract_data" = None)
     ∧ background_tasks accepted.2
         = background_tasks st ++ [Job file_path uuid4 file_type])
  ∧ (∀ task_id s st',
       task_status_of task_id st = Some s →
       rtc step st st' →
       task_status_of task_id st' = Some s
       ∨ (s = VStr "processing"
          ∧ ∃ s', task_status_of task_id st' = Some (VStr s')
                  ∧ s' ∈ ["completed"; "failed"]))
  ∧ (∀ task_id s st' st'',
       task_status_of task_id st = Some s →
       rtc step st st' →
       rtc step st' st'' →
       task_status_of task_id st' ≠ Some s →
       task_status_of task_id st'' = task_status_of task_id st')
  ∧ (∀ uuid4 now task_id,
       task_status_of task_id st = Some (VStr "processing") →
       (app uuid4 now (GET_tasks task_id) st).1
         = Ok (JSONResponse (VDict (CustomStandard.response 200 "success"
                 "Task status retrieved"
                 (VDict {[ "status" := VStr "processing" ]}))))).
Proof.
  intros Hinv%reachable_tasks_inv. split; [|split; [|split]].
  - intros uuid4 now filename file_content file_path file_type Hfresh Hpath Htype.
    unfold app. rewrite (extract_text_run _ _ _ _ file_path file_type) by done.
    simpl. split; [done|]. split; [|done].
    exists (Document (next_id st) (task_document uuid4 file_path file_type now)).
    split; [|done].
    unfold collection at 1. simpl. rewrite lookup_insert_eq. simpl.
    apply find_app_new; [|apply matches_insert].
    intros doc Hdoc. by apply (fresh_collection uuid4 st "Tasks").
  - intros task_id s st' Hs Hsteps.
    destruct (steps_status st st' task_id s Hinv Hsteps Hs) as [?|[-> ?]]; [by left|].
    right. split; [done|]. exists "completed". split; [done|]. left.
  - intros task_id s st' st'' Hs Hsteps Hsteps' Hchanged.
    destruct (steps_status st st' task_id s Hinv Hsteps Hs) as [?|[-> Hs']]; [done|].
    pose proof (steps_tasks_inv st st' Hinv Hsteps) as Hinv'.
    rewrite Hs'.
    by destruct (steps_status st' st'' task_id _ Hinv' Hsteps' Hs') as [?|[[=] _]].
  - intros uuid4 now task_id Hs. unfold app, get_task_status. run.
    unfold task_status_of in Hs. fold (collection "Tasks" st).
    destruct (List.find _ _) as [task|]; [|done]. simpl in *. by rewrite Hs.
Qed.

End tasks.

Lemma process_Data_failure_witness :
  let accepted :=
    (app (lax := example.strict) (api := example.api) "t2" (VInt 7)
       (POST_extract_text (Some ("scan.pdf", "%PDF"))) initial).2 in
  let run := process_Data (api := example.api) (VInt 8) "uploads/scan.pdf" "t2" "pdf" accepted in
  get_raw_data (geminiApi := example.api) "uploads/scan.pdf" "pdf"
    = Raise (Exception "unsupported file")
  ∧ run = (Raise (ValidationError "extract_data" "Input should be a valid string"),
           accepted)
  ∧ task_status_of "t2" run.2 = Some (VStr "processing").
Proof.
  intros accepted run. split; [reflexivity|]. unfold run.
  rewrite (process_Data_failure_is_not_recorded (api := example.api) (VInt 8)
             "uploads/scan.pdf" "t2" "pdf" (Exception "unsupported file") accepted eq_refl).
  split; [reflexivity|]. vm_compute. reflexivity.
Defined.

Lemma task_lifecycle_witness :
  let accepted :=
    (app (lax := example.strict) (api := example.api) "t1" (VInt 7)
       (POST_extract_text (Some ("notes.txt", "hello"))) initial).2 in
  let finished :=
    (process_Data (api := example.api) (VInt 8) "uploads/notes.txt" "t1" "text"
       (set_background_tasks ([] ++ []) accepted)).2 in
  task_status_of "t1" accepted = Some (VStr "processing")
  ∧ (app (lax := example.strict) (api := example.api) "u" VNone (GET_tasks "t1") accepted).1
      = Ok (JSONResponse (VDict (CustomStandard.response 200 "success"
              "Task status retrieved" (VDict {[ "status" := VStr "processing" ]}))))
  ∧ (task_status_of "t1" finished = Some (VStr "processing")
     ∨ (VStr "processing" = VStr "processing"
        ∧ ∃ s', task_status_of "t1" finished = Some (VStr s')
                ∧ s' ∈ ["completed"; "failed"]))
  ∧ task_status_of "t1" finished = Some (VStr "completed").
Proof.
  intros accepted finished.
  assert (Hstatus : task_status_of "t1" accepted = Some (VStr "processing")).
  { vm_compute. reflexivity. }
  assert (Hreach : reachable (lax := example.strict) (api := example.api) accepted).
  { apply rtc_once.
    exact (step_request (lax := example.strict) (api := example.api) "t1" (VInt 7)
             (POST_extract_text (Some ("notes.txt", "hello"))) initial
             (fresh_initial "t1")). }
  assert (Hrun : rtc (step (lax := example.strict) (api := example.api)) accepted finished).
  { apply rtc_once.
    exact (step_background (lax := example.strict) (api := example.api) (VInt 8)
             (Job "uploads/notes.txt" "t1" "text") [] [] accepted eq_refl). }
  pose proof (task_lifecycle (lax := example.strict) (api := example.api) accepted Hreach)
    as (_ & Hmonotone & _ & Hget).
  split; [exact Hstatus|]. split; [exact (Hget "u" VNone "t1" Hstatus)|].
  split; [exact (Hmonotone "t1" (VStr "processing") finished Hstatus Hrun)|].
  vm_compute. reflexivity.
Defined.

(** * Further properties *)

(** ** Reads *)

Lemma find_app_other {A : Type} (P : A → bool) (l : list A) (x : A) :
  P x = false → List.find P (l ++ [x]) = List.find P l.
Proof.
  intros Hx. induction l as [|y l IH]; simpl; [by rewrite Hx|].
  by destruct (P y).
Qed.

Lemma collection_db (coll : string) (st st' : state) :
  db st' = db st → collection coll st' = collection coll st.
Proof. unfold collection. by intros ->. Qed.

Section reads.
Context {lax : LaxInt} {api : geminiApi}.

Lemma get_paper_run (p_id : string) (st : state) :
  get_paper p_id st
    = match redis_client st !! p_id with
      | Some cached =>
          (Ok (JSONResponse (VDict (CustomStandard.response 200 "success"
                 "Paper retrieved from cache" (json_loads cached)))),
           State (db st) (redis_client st) (next_id st) (background_tasks st)
                 (trace st ++ [redis_get p_id]))
      | None =>
          match List.find (matches "p_id" p_id) (collection "papers" st) with
          | Some paper =>
              (Ok (JSONResponse (VDict (CustomStandard.response 200 "success"
                     "Paper retrieved from database" (VDict (fields paper))))),
               State (db st)
                     (<[p_id := json_dumps (VDict (fields paper))]> (redis_client st))
                     (next_id st) (background_tasks st)
                     (trace st ++ [redis_get p_id; find_one "papers" "p_id" p_id;
                                   redis_set p_id (json_dumps (VDict (fields paper)))]))
          | None =>
              (Raise (HTTPException 404 "Paper not found"),
               State (db st) (redis_client st) (next_id st) (background_tasks st)
                     (trace st ++ [redis_get p_id; find_one "papers" "p_id" p_id]))
          end
      end.
Proof.
  unfold get_paper. run.
  destruct (redis_client st !! p_id) as [cached|]; simpl; [done|].
  unfold collection at 1. simpl. fold (collection "papers" st).
  destruct (List.find _ _); unfold record, set_redis; simpl;
    by rewrite <- ?app_assoc.
Qed.

(** A read that follows a read answers the same data, from the cache, and
    writes nothing; a read that found nothing finds nothing again, the first
    having cached nothing. *)
Theorem get_paper_twice (uuid4 : string) (now : value) (uuid4' : string) (now' : value)
    (p_id : string) (st : state) :
  let first := app uuid4 now (GET_papers p_id) st in
  let second := app uuid4' now' (GET_papers p_id) first.2 in
  db second.2 = db st
  ∧ redis_client second.2 = redis_client first.2
  ∧ match first.1 with
    | Ok _ =>
        ∃ message data,
          first.1 = Ok (JSONResponse (VDict (CustomStandard.response 200 "success"
                          message data)))
          ∧ second.1 = Ok (JSONResponse (VDict (CustomStandard.response 200 "success"
                             "Paper retrieved from cache" data)))
    | Raise e =>
        first.1 = Raise (HTTPException 404 "Paper not found")
        ∧ second.1 = first.1
        ∧ redis_client second.2 = redis_client st
    end.
Proof.
  unfold app. rewrite (get_paper_run p_id st).
  destruct (redis_client st !! p_id) as [cached|] eqn:Hcached;
    [|destruct (List.find _ (collection "papers" st)) as [paper|] eqn:Hfind];
    cbn [fst snd]; rewrite get_paper_run; cbn [redis_client].
  - rewrite Hcached. cbn. split; [done|]. split; [done|].
    eexists _, _; split; reflexivity.
  - rewrite lookup_insert_eq. cbn. split; [done|]. split; [done|].
    eexists _, _; split; reflexivity.
  - rewrite Hcached, (collection_db "papers" st), Hfind by done. by cbn.
Qed.

(** Creating a paper leaves what a read of any other identifier answers. *)
Theorem create_keeps_other_papers (uuid4 : string) (now : value)
    (uuid4' : string) (now' : value) (body : value) (p_id : string) (st : state) :
  p_id ≠ uuid4 →
  (app uuid4' now' (GET_papers p_id) (app uuid4 now (POST_paper body) st).2).1
    = (app uuid4' now' (GET_papers p_id) st).1.
Proof.
  intros Hne. unfold app at 2.
  destruct (pydantic.Model SamplePaper.validate "body" body) as [paper|e]; [|done].
  rewrite create_paper_run. cbn [snd].
  set (stored := <["p_id" := VStr uuid4]> (SamplePaper.model_dump paper)).
  set (st1 := State _ _ _ _ _).
  assert (Hpapers : collection "papers" st1
                    = collection "papers" st ++ [Document (next_id st) stored]).
  { unfold collection at 1. cbn. by rewrite lookup_insert_eq. }
  assert (Hfind : List.find (matches "p_id" p_id) (collection "papers" st1)
                  = List.find (matches "p_id" p_id) (collection "papers" st)).
  { rewrite Hpapers. apply find_app_other. unfold matches, stored. cbn [fields].
    rewrite lookup_insert_eq. cbn. apply bool_decide_eq_false. congruence. }
  unfold app. rewrite (get_paper_run p_id st1), (get_paper_run p_id st), Hfind.
  change (redis_client st1) with (redis_client st).
  destruct (redis_client st !! p_id) as [cached|]; [done|].
  by destruct (List.find (matches "p_id" p_id) (collection "papers" st)).
Qed.

End reads.

Lemma create_keeps_other_papers_witness :
  (app (lax := example.strict) (api := example.api) "u" VNone (GET_papers "p1")
     (app (lax := example.strict) (api := example.api) "p2" VNone
        (POST_paper (VDict example.payload)) example.stored).2).1
  = (app (lax := example.strict) (api := example.api) "u" VNone (GET_papers "p1")
       example.stored).1.
Proof.
  apply (create_keeps_other_papers (lax := example.strict) (api := example.api)).
  discriminate.
Defined.

(** ** Requests that fail *)

Lemma delete_first_none (field val : string) (docs : list document) :
  existsb (matches field val) docs = false → delete_first field val docs = docs.
Proof.
  induction docs as [|doc docs IH]; simpl; [done|].
  destruct (matches field val doc); simpl; [done|]. intros Hdocs. by rewrite IH.
Qed.


Lemma raises_bind {A B : Type} (m : result A) (f : A → result B) :
  raises_ValidationError m → (∀ a, raises_ValidationError (f a)) →
  raises_ValidationError (m ≫= f).
Proof. destruct m as [a|e]; simpl; [auto|done]. Qed.

Lemma raises_traverse {A B : Type} (f : A → result B) (l : list A) :
  (∀ x, raises_ValidationError (f x)) → raises_ValidationError (traverse f l).
Proof.
  intros Hf. induction l as [|x l IH]; simpl; [done|].
  apply raises_bind; [done|]. intros y. apply raises_bind; [done|]. by intros ys.
Qed.

Lemma raises_str (loc : string) (v : value) : raises_ValidationError (pydantic.str loc v).
Proof. destruct v; simpl; eauto. Qed.

Lemma raises_dict (loc : string) (v : value) : raises_ValidationError (pydantic.dict_ loc v).
Proof. destruct v; simpl; eauto. Qed.

Lemma raises_Optional {A : Type} (f : string → value → result A) (loc : string) (v : value) :
  (∀ loc v, raises_ValidationError (f loc v)) →
  raises_ValidationError (pydantic.Optional f loc v).
Proof.
  intros Hf. destruct v; simpl; try done;
    match goal with |- context [f ?l ?v] => specialize (Hf l v); by destruct (f l v) end.
Qed.

Lemma raises_List {A : Type} (f : string → value → result A) (loc : string) (v : value) :
  (∀ loc v, raises_ValidationError (f loc v)) →
  raises_ValidationError (pydantic.List_ f loc v).
Proof. intros Hf. destruct v; simpl; eauto using raises_traverse. Qed.

Lemma raises_Model {A : Type} (validate : dict → result A) (loc : string) (v : value) :
  (∀ d, raises_ValidationError (validate d)) →
  raises_ValidationError (pydantic.Model validate loc v).
Proof. intros Hf. destruct v; simpl; eauto. Qed.

Lemma raises_required {A : Type} (kwargs : dict) (name : string)
    (f : string → value → result A) :
  (∀ loc v, raises_ValidationError (f loc v)) →
  raises_ValidationError (pydantic.required kwargs name f).
Proof. intros Hf. unfold pydantic.required. destruct (kwargs !! name); simpl; eauto. Qed.

Lemma raises_optional {A : Type} (kwargs : dict) (name : string)
    (f : string → value → result A) (default : A) :
  (∀ loc v, raises_ValidationError (f loc v)) →
  raises_ValidationError (pydantic.optional kwargs name f default).
Proof. intros Hf. unfold pydantic.optional. destruct (kwargs !! name); simpl; eauto. Qed.

Lemma raises_field_validator (loc : string) (f : string → result string) (v : string) :
  raises_ValidationError (pydantic.field_validator loc f v).
Proof. unfold pydantic.field_validator. destruct (f v); simpl; eauto. Qed.

Lemma raises_Question (kwargs : dict) : raises_ValidationError (Question.validate kwargs).
Proof.
  unfold Question.validate.
  repeat (apply raises_bind;
          [auto using raises_required, raises_optional, raises_Optional, raises_str,
             raises_dict, raises_field_validator|intros ?]).
  all: try apply raises_field_validator; done.
Qed.

Section raises.
Context {lax : LaxInt}.

Lemma raises_int (loc : string) (v : value) : raises_ValidationError (pydantic.int loc v).
Proof. destruct v; simpl; try done; destruct (lax_int _); simpl; eauto. Qed.

Lemma raises_Section (kwargs : dict) : raises_ValidationError (Section_.validate kwargs).
Proof.
  unfold Section_.validate.
  repeat (apply raises_bind;
          [auto using raises_required, raises_int, raises_str, raises_field_validator,
             raises_List, raises_Model, raises_Question|intros ?]).
  all: try apply raises_field_validator; done.
Qed.

Lemma raises_PaperParams (kwargs : dict) :
  raises_ValidationError (PaperParams.validate kwargs).
Proof.
  unfold PaperParams.validate.
  repeat (apply raises_bind; [auto using raises_required, raises_int, raises_str|intros ?]).
  all: try apply raises_field_validator; done.
Qed.

Lemma raises_SamplePaper (kwargs : dict) :
  raises_ValidationError (SamplePaper.validate kwargs).
Proof.
  unfold SamplePaper.validate.
  repeat (apply raises_bind;
          [auto 6 using raises_required, raises_optional, raises_Optional, raises_int,
             raises_str, raises_field_validator, raises_List, raises_Model,
             raises_Section, raises_PaperParams|intros ?]).
  all: try apply raises_field_validator; done.
Qed.

End raises.

Section failures.
Context {lax : LaxInt} {api : geminiApi}.

Lemma delete_paper_run (paper_id : string) (st : state) :
  delete_paper paper_id st
    = let docs := collection "papers" st in
      if existsb (matches "p_id" paper_id) docs
      then (Ok (JSONResponse (VDict (CustomStandard.response 200 "success"
                  "Paper deleted successfully" VNone))),
            State (<["papers" := delete_first "p_id" paper_id docs]> (db st))
                  (delete paper_id (redis_client st)) (next_id st)
                  (background_tasks st)
                  (trace st ++ [delete_one "papers" "p_id" paper_id;
                                redis_delete paper_id]))
      else (Raise (HTTPException 404 "Paper not found"),
            State (<["papers" := docs]> (db st)) (redis_client st) (next_id st)
                  (background_tasks st)
                  (trace st ++ [delete_one "papers" "p_id" paper_id])).
Proof.
  unfold delete_paper. run. unfold collection at 1 2. cbn [db record].
  fold (collection "papers" st).
  destruct (existsb _ _) eqn:Hex; simpl.
  - unfold record, set_redis, set_collection. simpl. by rewrite <- app_assoc.
  - by rewrite delete_first_none.
Qed.


(** When no stored paper answers to the identifier, DELETE answers 404 before
    it reaches the cache: an entry the cache holds for the identifier stays,
    and a read still answers it. *)
Theorem delete_not_found_keeps_cache (uuid4 : string) (now : value)
    (uuid4' : string) (now' : value) (p_id paper_id : string)
    (query : gmap string string) (cached : json_text) (st : state) :
  query !! "paper_id" = Some paper_id →
  existsb (matches "p_id" paper_id) (collection "papers" st) = false →
  redis_client st !! paper_id = Some cached →
  let deleted := app uuid4 now (DELETE_papers p_id query) st in
  let got := app uuid4' now' (GET_papers paper_id) deleted.2 in
  send deleted.1 = HTTP 404 (VDict {[ "detail" := VStr "Paper not found" ]})
  ∧ trace deleted.2 = trace st ++ [delete_one "papers" "p_id" paper_id]
  ∧ got.1 = Ok (JSONResponse (VDict (CustomStandard.response 200 "success"
                  "Paper retrieved from cache" (json_loads cached)))).
Proof.
  intros Hquery Hex Hcached. unfold app. rewrite Hquery.
  rewrite delete_paper_run. cbn zeta. rewrite Hex. cbn [fst snd].
  split; [done|]. split; [done|].
  rewrite get_paper_run. cbn [redis_client]. by rewrite Hcached.
Qed.

(** Once the stored record of a paper does not validate, every update of
    that paper fails with a bare 500, whatever the patch, and writes nothing:
    the record cannot be repaired through PUT. *)
Theorem update_paper_invalid_stored_record (uuid4 : string) (now : value)
    (p_id : string) (patch : dict) (st : state) (doc : document) (e : exn) :
  List.find (matches "p_id" p_id) (collection "papers" st) = Some doc →
  SamplePaper.validate (fields doc) = Raise e →
  let updated := app uuid4 now (PUT_papers p_id (VDict patch)) st in
  send updated.1 = HTTP 500 (VStr "Internal Server Error")
  ∧ (∀ coll, collection coll updated.2 = collection coll st)
  ∧ redis_client updated.2 = redis_client st
  ∧ trace updated.2 = trace st ++ [find_one "papers" "p_id" p_id].
Proof.
  intros Hfind Hv. unfold app. cbn [pydantic.dict_].
  unfold update_paper. run. unfold collection at 1 2 3. cbn [db record].
  fold (collection "papers" st). rewrite Hfind. cbn. rewrite Hv. cbn.
  pose proof (raises_SamplePaper (fields doc)) as Hraises. rewrite Hv in Hraises.
  destruct Hraises as (loc & msg & ->). done.
Qed.

End failures.


Lemma delete_not_found_keeps_cache_witness :
  let deleted := app (lax := example.strict) (api := example.api) "u" VNone
                   (DELETE_papers "p1" {[ "paper_id" := "p1" ]})
                   example_renamed.renamed in
  let got := app (lax := example.strict) (api := example.api) "u" VNone
               (GET_papers "p1") deleted.2 in
  send deleted.1 = HTTP 404 (VDict {[ "detail" := VStr "Paper not found" ]})
  ∧ got.1 = Ok (JSONResponse (VDict (CustomStandard.response 200 "success"
                  "Paper retrieved from cache"
                  (VDict (<["p_id" := VStr "p2"]>
                            (SamplePaper.model_dump example.stored_paper)))))).
Proof.
  pose proof (delete_not_found_keeps_cache (lax := example.strict) (api := example.api)
                "u" VNone "u" VNone "p1" "p1" {[ "paper_id" := "p1" ]}
                (json_dumps (VDict (<["p_id" := VStr "p2"]>
                                      (SamplePaper.model_dump example.stored_paper))))
                example_renamed.renamed)
    as Hthm.
  destruct Hthm as (Hdeleted & _ & Hgot); [vm_compute; reflexivity..|].
  split; [exact Hdeleted|exact Hgot].
Defined.

Lemma update_paper_invalid_stored_record_witness :
  let updated := app (lax := example.strict) (api := example.api) "u" VNone
                   (PUT_papers "p1" (VDict {[ "type" := VStr "mock" ]}))
                   example_failures.spoiled in
  send updated.1 = HTTP 500 (VStr "Internal Server Error")
  ∧ redis_client updated.2 = redis_client example_failures.spoiled.
Proof.
  pose proof (update_paper_invalid_stored_record (lax := example.strict)
                (api := example.api) "u" VNone "p1" {[ "type" := VStr "mock" ]}
                example_failures.spoiled
                (Document 0 (<["type" := VStr "bogus"]>
                               (SamplePaper.model_dump example.stored_paper)))
                (ValidationError "type"
                   "Value error, Paper type must be one of {'previous_year', 'mock', 'sample'}"))
    as Hthm.
  destruct Hthm as (Hsent & _ & Hredis & _); [vm_compute; reflexivity..|].
  split; [exact Hsent|exact Hredis].
Defined.

(** ** Validation of bodies *)

Lemma type_validated (kwargs : dict) (allowed : list string)
    (f : string → result string) (t ty : string) :
  (∀ v w, f v = Ok w ↔ w = v ∧ v ∈ allowed) →
  kwargs !! "type" = Some (VStr t) →
  pydantic.required kwargs "type" pydantic.str ≫= pydantic.field_validator "type" f
    = Ok ty →
  t ∈ allowed.
Proof.
  intros Hf Hlookup (v & Hv & Hty)%bind_Ok.
  apply required_Ok in Hv as (? & Hv' & Hstr). rewrite Hlookup in Hv'.
  injection Hv' as <-. injection Hstr as <-.
  by apply (field_validator_Ok _ _ _ _ _ Hf) in Hty as [_ ?].
Qed.

Lemma Forall2_validated {A : Type} (validate : dict → result A)
    (ds : list dict) (l : list A) (d : dict) :
  Forall2 (λ d a, validate d = Ok a) ds l → d ∈ ds → ∃ a, validate d = Ok a.
Proof.
  intros Hds Hd. induction Hds as [|d' a ds l Hd' _ IH]; [by apply elem_of_nil in Hd|].
  apply elem_of_cons in Hd as [->|Hd]; eauto.
Qed.

Lemma list_validated {A : Type} (validate : dict → result A) (kwargs : dict)
    (name : string) (vs : list value) (d : dict) (l : list A) :
  pydantic.required kwargs name (pydantic.List_ (pydantic.Model validate)) = Ok l →
  kwargs !! name = Some (VList vs) → VDict d ∈ vs → ∃ a, validate d = Ok a.
Proof.
  intros (v & Hv & (ds & Hvs & Hds)%List_Model_Ok)%required_Ok Hlookup Hd.
  rewrite Hlookup in Hv. injection Hv as <-. injection Hvs as ->.
  apply (Forall2_validated validate ds l); [done|].
  apply list_elem_of_fmap in Hd as (d' & [= ->] & Hd'). done.
Qed.

Section bodies.
Context {lax : LaxInt} {api : geminiApi}.

Lemma rejected_body (uuid4 : string) (now : value) (kwargs : dict) (st : state) :
  (∀ p, SamplePaper.validate kwargs ≠ Ok p) →
  (∃ loc msg, SamplePaper.validate kwargs = Raise (ValidationError loc msg))
  ∧ app uuid4 now (POST_paper (VDict kwargs)) st
      = (Raise (RequestValidationError "body"), st).
Proof.
  intros Hno. unfold app. cbn [pydantic.Model].
  pose proof (raises_SamplePaper kwargs) as Hraises.
  destruct (SamplePaper.validate kwargs) as [p|e]; [by destruct (Hno p)|].
  destruct Hraises as (loc & msg & ->). split; [by exists loc, msg|done].
Qed.

(** Serialising a paper and constructing it again gives the paper back
    exactly when its type, the types of its sections and the types of their
    questions are among the allowed ones; so what the constructor returns,
    serialised, constructs itself. *)
Theorem validate_model_dump_round_trip (p : SamplePaper.t) :
  (SamplePaper.validate (SamplePaper.model_dump p) = Ok p ↔ SamplePaper.valid p)
  ∧ ∀ kwargs, SamplePaper.validate kwargs = Ok p →
              SamplePaper.validate (SamplePaper.model_dump p) = Ok p.
Proof.
  split; [split|].
  - apply SamplePaper_validate_valid.
  - apply SamplePaper_validate_model_dump.
  - intros kwargs Hv%SamplePaper_validate_valid.
    by apply SamplePaper_validate_model_dump.
Qed.

(** A type outside the allowed ones is rejected wherever it stands: in the
    paper, in one of its sections, or in a question of one of its sections.
    The body is answered 422 and nothing is stored. *)
Theorem invalid_type_is_rejected (uuid4 : string) (now : value) (kwargs : dict)
    (st : state) :
  (∃ t, kwargs !! "type" = Some (VStr t) ∧ t ∉ SamplePaper.allowed_types)
  ∨ (∃ sections section,
       kwargs !! "sections" = Some (VList sections) ∧ VDict section ∈ sections
       ∧ ((∃ t, section !! "type" = Some (VStr t) ∧ t ∉ Section_.allowed_types)
          ∨ ∃ questions question t,
              section !! "questions" = Some (VList questions)
              ∧ VDict question ∈ questions
              ∧ question !! "type" = Some (VStr t)
              ∧ t ∉ Question.allowed_types)) →
  (∃ loc msg, SamplePaper.validate kwargs = Raise (ValidationError loc msg))
  ∧ app uuid4 now (POST_paper (VDict kwargs)) st
      = (Raise (RequestValidationError "body"), st).
Proof.
  intros Hbad. apply rejected_body. intros p Hv.
  apply SamplePaper_validate_Ok in Hv as (_ & _ & Hty & _ & _ & _ & _ & _ & Hss).
  destruct Hbad as [(t & Ht & Hbad)|(sections & section & Hsections & Hsection & Hbad)].
  - apply Hbad. by apply (type_validated kwargs _ _ t _ validate_paper_type_Ok Ht Hty).
  - destruct (list_validated _ _ _ _ _ _ Hss Hsections Hsection) as [s Hs].
    apply Section_validate_Ok in Hs as (_ & Hsty & Hqs).
    destruct Hbad as [(t & Ht & Hbad)|(questions & question & t & Hquestions & Hquestion
                                        & Ht & Hbad)].
    + apply Hbad.
      by apply (type_validated section _ _ t _ validate_section_type_Ok Ht Hsty).
    + destruct (list_validated _ _ _ _ _ _ Hqs Hquestions Hquestion) as [q Hq].
      apply Question_validate_Ok in Hq as (_ & _ & Hqty & _).
      apply Hbad.
      by apply (type_validated question _ _ t _ validate_question_type_Ok Ht Hqty).
Qed.

(** A body that lacks one of the eight fields without a default is answered
    422 and nothing is stored. *)
Theorem missing_field_is_rejected (uuid4 : string) (now : value) (kwargs : dict)
    (name : string) (st : state) :
  name ∈ ["title"; "type"; "time"; "marks"; "params"; "tags"; "chapters"; "sections"] →
  kwargs !! name = None →
  (∃ loc msg, SamplePaper.validate kwargs = Raise (ValidationError loc msg))
  ∧ app uuid4 now (POST_paper (VDict kwargs)) st
      = (Raise (RequestValidationError "body"), st).
Proof.
  intros Hname Hmissing. apply rejected_body. intros p Hv.
  apply SamplePaper_validate_Ok
    in Hv as (_ & Htitle & (? & Htype & _)%bind_Ok & Htime & Hmarks & Hparams & Htags
              & Hchapters & Hsections).
  repeat (apply elem_of_cons in Hname as [->|Hname];
          [match goal with
           | H : pydantic.required kwargs _ _ = Ok _ |- _ =>
               apply required_Ok in H as (? & H & _); by rewrite Hmissing in H
           end|]).
  by apply elem_of_nil in Hname.
Qed.

(** A key of the body that is not a field of the model changes nothing:
    the response and the state are those of the body without it. *)
Theorem create_ignores_unknown_keys (uuid4 : string) (now : value) (kwargs : dict)
    (name : string) (v : value) (st : state) :
  name ∉ SamplePaper.model_fields →
  app uuid4 now (POST_paper (VDict (<[name := v]> kwargs))) st
    = app uuid4 now (POST_paper (VDict kwargs)) st.
Proof.
  intros Hname. unfold app. cbn [pydantic.Model].
  rewrite (SamplePaper_validate_agree kwargs (<[name := v]> kwargs)); [done|].
  intros field Hfield. apply lookup_insert_ne. by intros ->.
Qed.

End bodies.

Lemma validate_model_dump_round_trip_witness :
  SamplePaper.validate (lax := example.strict) (SamplePaper.model_dump example.paper)
    = Ok example.paper.
Proof.
  apply (proj2 (validate_model_dump_round_trip (lax := example.strict) example.paper)
           example.payload).
  vm_compute. reflexivity.
Defined.

Lemma invalid_type_is_rejected_witness :
  app (lax := example.strict) (api := example.api) "p1" VNone
    (POST_paper (VDict example_failures.odd_payload)) initial
  = (Raise (RequestValidationError "body"), initial).
Proof.
  apply (invalid_type_is_rejected (lax := example.strict) (api := example.api)).
  right.
  exists [VDict (<["questions" := VList [VDict example_failures.odd_question]]>
                   example.section)],
         (<["questions" := VList [VDict example_failures.odd_question]]> example.section).
  split; [vm_compute; reflexivity|]. split; [left|].
  right. exists [VDict example_failures.odd_question], example_failures.odd_question, "essay".
  split; [vm_compute; reflexivity|]. split; [left|]. split; [vm_compute; reflexivity|].
  intros Hin. apply (bool_decide_pack _) in Hin. vm_compute in Hin. exact Hin.
Defined.

Lemma missing_field_is_rejected_witness :
  app (lax := example.strict) (api := example.api) "p1" VNone
    (POST_paper (VDict (delete "title" example.payload))) initial
  = (Raise (RequestValidationError "body"), initial).
Proof.
  apply (missing_field_is_rejected (lax := example.strict) (api := example.api)
           "p1" VNone (delete "title" example.payload) "title" initial).
  - left.
  - apply lookup_delete_eq.
Defined.

Lemma create_ignores_unknown_keys_witness :
  app (lax := example.strict) (api := example.api) "p1" VNone
    (POST_paper (VDict (<["_id" := VStr "x"]> example.payload))) initial
  = app (lax := example.strict) (api := example.api) "p1" VNone
      (POST_paper (VDict example.payload)) initial.
Proof.
  apply (create_ignores_unknown_keys (lax := example.strict) (api := example.api)).
  intros Hin. apply (bool_decide_pack _) in Hin. vm_compute in Hin. exact Hin.
Defined.

(** ** Tasks *)

Lemma same_task_refl (doc : document) : same_task doc doc.
Proof. by split. Qed.

Lemma same_task_trans (doc1 doc2 doc3 : document) :
  same_task doc1 doc2 → same_task doc2 doc3 → same_task doc1 doc3.
Proof.
  intros [Hid Hfields] [Hid' Hfields']. split; [congruence|].
  intros name H1 H2. by rewrite Hfields', Hfields.
Qed.

Lemma completed_lookup (extract_data : value) (name : string) :
  name ≠ "task_status" → name ≠ "extract_data" →
  completed extract_data !! name = None.
Proof.
  intros H1 H2. unfold completed.
  rewrite lookup_insert_ne by done. by apply lookup_singleton_ne.
Qed.

Lemma update_first_lookup (field val : string) (set : dict) (docs : list document)
    (i : nat) (doc : document) :
  docs !! i = Some doc →
  update_first field val set docs !! i = Some doc
  ∨ (matches field val doc = true
     ∧ update_first field val set docs !! i
         = Some (Document (_id doc) (set ∪ fields doc))).
Proof.
  revert i. induction docs as [|d docs IH]; intros i Hi; [done|]. simpl.
  destruct (matches field val d) eqn:Hd.
  - destruct i as [|i]; simpl in *; [|by left].
    injection Hi as ->. by right.
  - destruct i as [|i]; simpl in *; [by left|]. by apply IH.
Qed.

Lemma update_first_length (field val : string) (set : dict) (docs : list document) :
  length (update_first field val set docs) = length docs.
Proof.
  induction docs as [|d docs IH]; simpl; [done|].
  destruct (matches field val d); simpl; by rewrite ?IH.
Qed.

Lemma update_first_Forall (P : document → Prop) (field val : string) (set : dict)
    (docs : list document) :
  (∀ doc, P doc → P (Document (_id doc) (set ∪ fields doc))) →
  Forall P docs → Forall P (update_first field val set docs).
Proof.
  intros Hset Hdocs. induction Hdocs as [|doc docs Hdoc Hdocs IH]; simpl; [done|].
  destruct (matches field val doc); constructor; auto.
Qed.

Section tasks_further.
Context {lax : LaxInt} {api : geminiApi}.

Lemma get_task_status_run (task_id : string) (st : state) :
  (get_task_status task_id st).1
    = match List.find (matches "t_id" task_id) (collection "Tasks" st) with
      | Some task =>
          match fields task !! "task_status" with
          | Some status =>
              Ok (JSONResponse (VDict (CustomStandard.response 200 "success"
                    "Task status retrieved" (VDict {[ "status" := status ]}))))
          | None => Raise (KeyError "task_status")
          end
      | None => Raise (HTTPException 404 "Task not found")
      end.
Proof.
  unfold get_task_status. run. unfold collection at 1. simpl.
  fold (collection "Tasks" st).
  destruct (List.find _ _) as [task|]; simpl; [|done].
  by destruct (fields task !! "task_status").
Qed.

Lemma step_same_task (st st' : state) (i : nat) (doc : document) :
  step st st' →
  collection "Tasks" st !! i = Some doc →
  ∃ doc', collection "Tasks" st' !! i = Some doc' ∧ same_task doc doc'.
Proof.
  intros [[Htasks _]|[(uuid4 & now & fp & ft & _ & Htasks & _)
                     |(j & jobs1 & jobs2 & _ & _ & [Htasks|[v Htasks]])]]%step_effect Hi;
    rewrite Htasks.
  - exists doc. split; [done|apply same_task_refl].
  - exists doc. split; [by apply lookup_app_l_Some|apply same_task_refl].
  - exists doc. split; [done|apply same_task_refl].
  - destruct (update_first_lookup "t_id" (job_task_id j) (completed v) _ i doc Hi)
      as [Hkept|[_ Hset]].
    + exists doc. split; [done|apply same_task_refl].
    + eexists. split; [exact Hset|]. split; [done|].
      intros name H1 H2. simpl. rewrite lookup_union_r; [done|].
      by apply completed_lookup.
Qed.

Lemma step_statuses (st st' : state) :
  step st st' →
  Forall (λ doc, fields doc !! "task_status" = Some (VStr "processing")
                 ∨ fields doc !! "task_status" = Some (VStr "completed"))
         (collection "Tasks" st) →
  Forall (λ doc, fields doc !! "task_status" = Some (VStr "processing")
                 ∨ fields doc !! "task_status" = Some (VStr "completed"))
         (collection "Tasks" st').
Proof.
  intros [[Htasks _]|[(uuid4 & now & fp & ft & _ & Htasks & _)
                     |(j & jobs1 & jobs2 & _ & _ & [Htasks|[v Htasks]])]]%step_effect
         Hdocs;
    rewrite Htasks; [done| |done|].
  - apply Forall_app. split; [done|]. constructor; [|done]. by left.
  - apply update_first_Forall; [|done]. intros doc _. right. simpl.
    by apply lookup_union_Some_l.
Qed.

Lemma steps_statuses (st st' : state) :
  rtc step st st' →
  Forall (λ doc, fields doc !! "task_status" = Some (VStr "processing")
                 ∨ fields doc !! "task_status" = Some (VStr "completed"))
         (collection "Tasks" st) →
  Forall (λ doc, fields doc !! "task_status" = Some (VStr "processing")
                 ∨ fields doc !! "task_status" = Some (VStr "completed"))
         (collection "Tasks" st').
Proof. induction 1; eauto using step_statuses. Qed.

Lemma reachable_statuses (st : state) :
  reachable st →
  Forall (λ doc, fields doc !! "task_status" = Some (VStr "processing")
                 ∨ fields doc !! "task_status" = Some (VStr "completed"))
         (collection "Tasks" st).
Proof. intros Hsteps. apply (steps_statuses initial st Hsteps). constructor. Qed.

Lemma step_completed (st st' : state) (task_id : string) (doc : document) :
  tasks_inv st → step st st' →
  List.find (matches "t_id" task_id) (collection "Tasks" st) = Some doc →
  fields doc !! "task_status" = Some (VStr "completed") →
  List.find (matches "t_id" task_id) (collection "Tasks" st') = Some doc.
Proof.
  intros [Hdocs Hjobs Hprocessing] Hstep Hfind Hstatus.
  apply step_effect in Hstep
    as [[Htasks _]|[(uuid4 & now & fp & ft & Hfresh & Htasks & _)
                   |(j & jobs1 & jobs2 & Hbg & _ & [Htasks|[v Htasks]])]];
    rewrite Htasks; [done|by apply find_app_found|done|].
  rewrite update_first_other; [done..| |done].
  intros ->.
  assert (Hj : j ∈ background_tasks st).
  { rewrite Hbg. apply elem_of_app. right. left. }
  specialize (Hprocessing j Hj). unfold task_status_of in Hprocessing.
  rewrite Hfind in Hprocessing. simpl in Hprocessing. congruence.
Qed.

(** When the extraction gives a text or nothing, the job sets the status of
    its task to completed and stores what was extracted; the other fields of
    the task, its time among them, stay, and GET /tasks/task_id then answers
    completed. *)
Theorem process_Data_completes_task
    (uuid4 : string) (now now' : value) (file_path task_id file_type : string)
    (extract_data : value) (doc : document) (st : state) :
  get_raw_data file_path file_type = Ok extract_data →
  extract_data = VNone ∨ (∃ text, extract_data = VStr text) →
  List.find (matches "t_id" task_id) (collection "Tasks" st) = Some doc →
  let finished := process_Data now file_path task_id file_type st in
  finished.1 = Ok ()
  ∧ (∃ doc',
       List.find (matches "t_id" task_id) (collection "Tasks" finished.2) = Some doc'
       ∧ fields doc' !! "task_status" = Some (VStr "completed")
       ∧ fields doc' !! "extract_data" = Some extract_data
       ∧ same_task doc doc')
  ∧ (app uuid4 now' (GET_tasks task_id) finished.2).1
      = Ok (JSONResponse (VDict (CustomStandard.response 200 "success"
              "Task status retrieved" (VDict {[ "status" := VStr "completed" ]})))).
Proof.
  intros Hraw Hdata Hfind finished.
  assert (Hrun : finished
            = (Ok (),
               State (<["Tasks" := update_first "t_id" task_id (completed extract_data)
                                     (collection "Tasks" st)]> (db st))
                     (redis_client st) (next_id st) (background_tasks st)
                     (trace st
                        ++ [update_one "Tasks" "t_id" task_id (completed extract_data)]))).
  { unfold finished. rewrite process_Data_run, Hraw.
    by destruct Hdata as [->|[text ->]]. }
  assert (Hfind' : List.find (matches "t_id" task_id) (collection "Tasks" finished.2)
                   = Some (Document (_id doc) (completed extract_data ∪ fields doc))).
  { rewrite Hrun. unfold collection at 1. simpl. rewrite lookup_insert_eq. simpl.
    rewrite update_first_same by done. by rewrite Hfind. }
  split; [by rewrite Hrun|]. split.
  - eexists. split; [exact Hfind'|]. simpl.
    split; [by apply lookup_union_Some_l|]. split; [by apply lookup_union_Some_l|].
    split; [done|]. intros name H1 H2. simpl.
    rewrite lookup_union_r; [done|]. by apply completed_lookup.
  - unfold app. rewrite get_task_status_run, Hfind'. simpl.
    by rewrite (lookup_union_Some_l _ _ _ (VStr "completed")).
Qed.

(** When the extraction gives something that is neither a text nor nothing,
    a list of pages for one, the job raises and records nothing: the state is
    unchanged, so the task keeps the status it had. *)
Theorem non_text_extraction_is_dropped
    (now : value) (file_path task_id file_type : string) (extract_data : value)
    (st : state) :
  get_raw_data file_path file_type = Ok extract_data →
  extract_data ≠ VNone → (∀ text, extract_data ≠ VStr text) →
  process_Data now file_path task_id file_type st
    = (Raise (ValidationError "extract_data" "Input should be a valid string"), st).
Proof.
  intros Hraw Hnone Htext. rewrite process_Data_run, Hraw.
  destruct extract_data; try done. by destruct (Htext s).
Qed.

(** A job touches the collection of tasks alone, and in it at most the first
    task that carries its identifier: the papers, the cache and the scheduled
    jobs stay, no task is added or removed, and a task with another
    identifier stays where it is. *)
Theorem process_Data_touches_only_its_task
    (now : value) (file_path task_id file_type : string) (st : state) :
  let st' := (process_Data now file_path task_id file_type st).2 in
  (∀ coll, coll ≠ "Tasks" → collection coll st' = collection coll st)
  ∧ redis_client st' = redis_client st
  ∧ background_tasks st' = background_tasks st
  ∧ next_id st' = next_id st
  ∧ length (collection "Tasks" st') = length (collection "Tasks" st)
  ∧ ∀ i doc, collection "Tasks" st !! i = Some doc →
             matches "t_id" task_id doc = false →
             collection "Tasks" st' !! i = Some doc.
Proof.
  intros st'. unfold st'. rewrite process_Data_run.
  destruct (get_raw_data file_path file_type) as [[]|]; simpl; try done.
  all: repeat split; try done.
  all: try (intros coll Hcoll; unfold collection; simpl; by rewrite lookup_insert_ne).
  all: try (unfold collection at 1; simpl; rewrite lookup_insert_eq; simpl;
            apply update_first_length).
  all: intros i doc Hi Hdoc; unfold collection at 1; simpl;
    rewrite lookup_insert_eq; simpl;
    destruct (update_first_lookup "t_id" task_id (completed VNone) _ i doc Hi)
      as [?|[? _]];
    try congruence.
  all: match goal with
       | |- context [completed ?v] =>
           destruct (update_first_lookup "t_id" task_id (completed v) _ i doc Hi)
             as [?|[? _]]; congruence
       end.
Qed.

(** Over any run no task is removed or moved, and nothing of a task changes
    but its status and its extracted data. *)
Theorem tasks_are_kept (st st' : state) :
  rtc step st st' →
  ∀ i doc, collection "Tasks" st !! i = Some doc →
           ∃ doc', collection "Tasks" st' !! i = Some doc' ∧ same_task doc doc'.
Proof.
  induction 1 as [st|st st1 st' Hstep _ IH]; intros i doc Hi.
  - exists doc. split; [done|apply same_task_refl].
  - destruct (step_same_task st st1 i doc Hstep Hi) as (doc1 & Hi1 & Hsame1).
    destruct (IH i doc1 Hi1) as (doc' & Hi' & Hsame').
    exists doc'. split; [done|]. by apply (same_task_trans doc doc1 doc').
Qed.

(** Once a task is completed, no later step changes its document: the
    extracted data it holds is final. *)
Theorem completed_task_is_final (st st' : state) (task_id : string) (doc : document) :
  reachable st →
  rtc step st st' →
  List.find (matches "t_id" task_id) (collection "Tasks" st) = Some doc →
  fields doc !! "task_status" = Some (VStr "completed") →
  List.find (matches "t_id" task_id) (collection "Tasks" st') = Some doc.
Proof.
  intros Hinv%reachable_tasks_inv Hsteps. revert Hinv.
  induction Hsteps as [st|st st1 st' Hstep Hsteps IH]; intros Hinv Hfind Hstatus;
    [done|].
  apply IH; [by apply (step_tasks_inv st)| |done].
  by apply (step_completed st).
Qed.

(** In every reachable state GET /tasks/task_id answers 404 for a task that
    does not exist and otherwise the status processing or completed; it never
    fails on a document without a status, and it never answers failed. *)
Theorem task_status_is_processing_or_completed
    (uuid4 : string) (now : value) (task_id : string) (st : state) :
  reachable st →
  let answer := (app uuid4 now (GET_tasks task_id) st).1 in
  (List.find (matches "t_id" task_id) (collection "Tasks" st) = None
   ∧ answer = Raise (HTTPException 404 "Task not found"))
  ∨ ∃ status, status ∈ ["processing"; "completed"]
              ∧ answer = Ok (JSONResponse (VDict (CustomStandard.response 200 "success"
                              "Task status retrieved"
                              (VDict {[ "status" := VStr status ]})))).
Proof.
  intros Hstatuses%reachable_statuses answer. unfold answer, app.
  rewrite get_task_status_run.
  destruct (List.find _ _) as [task|] eqn:Hfind; [|by left].
  right. apply find_some in Hfind as [Htask _].
  rewrite Forall_forall in Hstatuses.
  destruct (Hstatuses task Htask) as [->| ->].
  - exists "processing". split; [left|done].
  - exists "completed". split; [right; left|done].
Qed.

End tasks_further.

(** ** Routes *)

Section routes_further.
Context {lax : LaxInt} {api : geminiApi}.

(** Whatever a handler returns is sent with the HTTP status 200, and the code
    and the status of its envelope are fixed by the route: 202 and processing
    for POST /extract/text, 200 and success for every other route, the
    creation of a paper included. *)
Theorem envelope_code_by_route (uuid4 : string) (now : value) (r : request) (st : state) :
  match (app uuid4 now r st).1 with
  | Ok (JSONResponse content) =>
      http_status (send (app uuid4 now r st).1) = 200%Z
      ∧ ∃ message data,
          content = VDict (match r with
                           | POST_extract_text _ =>
                               CustomStandard.response 202 "processing" message data
                           | _ => CustomStandard.response 200 "success" message data
                           end)
  | Raise _ => True
  end.
Proof.
  destruct r as [body|p_id|p_id body|p_id query|file|task_id]; unfold app.
  - destruct (pydantic.Model SamplePaper.validate "body" body) as [paper|]; [|done].
    rewrite create_paper_run. simpl. split; [done|]. by eexists _, _.
  - rewrite get_paper_run.
    destruct (redis_client st !! p_id); simpl; [split; [done|]; by eexists _, _|].
    destruct (List.find _ _); simpl; [|done]. split; [done|]. by eexists _, _.
  - destruct (pydantic.dict_ "body" body) as [patch|]; [|done].
    unfold update_paper. run. unfold collection; simpl.
    destruct (List.find _ _); simpl; [|done].
    destruct (SamplePaper.validate _); simpl; [|done].
    split; [done|]. by eexists _, _.
  - destruct (query !! "paper_id") as [paper_id|]; [|done].
    rewrite delete_paper_run. cbn zeta.
    destruct (existsb _ _); simpl; [|done]. split; [done|]. by eexists _, _.
  - destruct file as [[filename file_content]|]; [|done].
    unfold extract_text. run.
    destruct (store_file_in_local_dir _ _); simpl; [|done].
    destruct (determine_file_type _); simpl; [|done].
    split; [done|]. by eexists _, _.
  - rewrite get_task_status_run.
    destruct (List.find _ _) as [task|]; [|done].
    destruct (fields task !! "task_status"); [|done].
    simpl. split; [done|]. by eexists _, _.
Qed.

(** The routes of the papers never touch the tasks or the scheduled jobs,
    the routes of the tasks never touch the papers or the cache, and the two
    GET routes change no collection. *)
Theorem routes_are_separate (uuid4 : string) (now : value) (r : request) (st : state) :
  let st' := (app uuid4 now r st).2 in
  match r with
  | POST_paper _ | PUT_papers _ _ | DELETE_papers _ _ =>
      collection "Tasks" st' = collection "Tasks" st
      ∧ background_tasks st' = background_tasks st
  | GET_papers _ =>
      (∀ coll, collection coll st' = collection coll st)
      ∧ background_tasks st' = background_tasks st
  | POST_extract_text _ =>
      collection "papers" st' = collection "papers" st
      ∧ redis_client st' = redis_client st
  | GET_tasks _ =>
      (∀ coll, collection coll st' = collection coll st)
      ∧ redis_client st' = redis_client st
      ∧ background_tasks st' = background_tasks st
  end.
Proof.
  intros st'. unfold st'.
  destruct r as [body|p_id|p_id body|p_id query|file|task_id]; unfold app.
  - destruct (pydantic.Model SamplePaper.validate "body" body) as [paper|]; [|done].
    rewrite create_paper_run. simpl. split; [|done].
    unfold collection. simpl. by rewrite lookup_insert_ne.
  - rewrite get_paper_run.
    destruct (redis_client st !! p_id); simpl; [done|].
    by destruct (List.find _ _).
  - destruct (pydantic.dict_ "body" body) as [patch|]; [|done].
    unfold update_paper. run. unfold collection at 1. simpl.
    destruct (List.find _ _); simpl; [|done].
    destruct (SamplePaper.validate _); simpl; [|done].
    split; [|done]. unfold collection. simpl. by rewrite lookup_insert_ne.
  - destruct (query !! "paper_id") as [paper_id|]; [|done].
    rewrite delete_paper_run. cbn zeta.
    destruct (existsb _ _); simpl; (split; [|done]);
      unfold collection; simpl; by rewrite lookup_insert_ne.
  - destruct file as [[filename file_content]|]; [|done].
    destruct (store_file_in_local_dir file_content filename) as [file_path|e] eqn:Hpath;
      [|rewrite extract_text_raise; eauto].
    destruct (determine_file_type filename) as [file_type|e] eqn:Htype;
      [|rewrite extract_text_raise; eauto].
    rewrite (extract_text_run _ _ _ _ file_path file_type) by done. simpl.
    split; [|done]. unfold collection. simpl. by rewrite lookup_insert_ne.
  - unfold get_task_status. run. unfold collection at 1. simpl.
    destruct (List.find _ _) as [task|]; simpl; [|done].
    by destruct (fields task !! "task_status").
Qed.

End routes_further.

Lemma accepted_reachable :
  reachable (lax := example.strict) (api := example.api) example_tasks.accepted.
Proof.
  apply rtc_once.
  exact (step_request (lax := example.strict) (api := example.api) "t1" (VInt 7)
           (POST_extract_text (Some ("notes.txt", "hello"))) initial
           (fresh_initial "t1")).
Qed.

Lemma accepted_finished :
  rtc (step (lax := example.strict) (api := example.api))
      example_tasks.accepted example_tasks.finished.
Proof.
  apply rtc_once.
  exact (step_background (lax := example.strict) (api := example.api) (VInt 8)
           (Job "uploads/notes.txt" "t1" "text") [] [] example_tasks.accepted eq_refl).
Qed.

Lemma finished_reachable :
  reachable (lax := example.strict) (api := example.api) example_tasks.finished.
Proof.
  unfold reachable. etrans; [apply accepted_reachable|apply accepted_finished].
Qed.

Lemma accepted_find :
  List.find (matches "t_id" "t1") (collection "Tasks" example_tasks.accepted)
    = Some example_tasks.task.
Proof. vm_compute. reflexivity. Qed.

Lemma finished_find :
  List.find (matches "t_id" "t1") (collection "Tasks" example_tasks.finished)
    = Some example_tasks.finished_task.
Proof. vm_compute. reflexivity. Qed.

Lemma process_Data_completes_task_witness :
  let finished :=
    process_Data (api := example.api) (VInt 8) "uploads/notes.txt" "t1" "text"
      example_tasks.accepted in
  finished.1 = Ok ()
  ∧ (∃ doc',
       List.find (matches "t_id" "t1") (collection "Tasks" finished.2) = Some doc'
       ∧ fields doc' !! "task_status" = Some (VStr "completed")
       ∧ fields doc' !! "extract_data" = Some (VStr "extracted text")
       ∧ same_task example_tasks.task doc')
  ∧ (app (lax := example.strict) (api := example.api) "u" VNone (GET_tasks "t1")
       finished.2).1
      = Ok (JSONResponse (VDict (CustomStandard.response 200 "success"
              "Task status retrieved" (VDict {[ "status" := VStr "completed" ]})))).
Proof.
  apply (process_Data_completes_task (lax := example.strict) (api := example.api)
           "u" (VInt 8) VNone "uploads/notes.txt" "t1" "text" (VStr "extracted text")
           example_tasks.task example_tasks.accepted).
  - reflexivity.
  - right. by exists "extracted text".
  - exact accepted_find.
Defined.

Lemma non_text_extraction_is_dropped_witness :
  process_Data (api := example_failures.pages) (VInt 8) "uploads/scan.pdf" "t1" "pdf"
    example_tasks.accepted
  = (Raise (ValidationError "extract_data" "Input should be a valid string"),
     example_tasks.accepted).
Proof.
  apply (non_text_extraction_is_dropped (api := example_failures.pages) (VInt 8)
           "uploads/scan.pdf" "t1" "pdf" (VList [VStr "page 1"; VStr "page 2"])).
  - reflexivity.
  - discriminate.
  - discriminate.
Defined.

Lemma tasks_are_kept_witness :
  ∃ doc', collection "Tasks" example_tasks.finished !! 0%nat = Some doc'
          ∧ same_task example_tasks.task doc'.
Proof.
  apply (tasks_are_kept (lax := example.strict) (api := example.api)
           example_tasks.accepted example_tasks.finished accepted_finished 0%nat
           example_tasks.task).
  vm_compute. reflexivity.
Defined.

Lemma completed_task_is_final_witness :
  let later :=
    (app (lax := example.strict) (api := example.api) "u" VNone
       (POST_extract_text (Some ("notes.txt", "again"))) example_tasks.finished).2 in
  List.find (matches "t_id" "t1") (collection "Tasks" later)
    = Some example_tasks.finished_task.
Proof.
  intros later.
  apply (completed_task_is_final (lax := example.strict) (api := example.api)
           example_tasks.finished later "t1" example_tasks.finished_task
           finished_reachable).
  - apply rtc_once.
    apply (step_request (lax := example.strict) (api := example.api) "u" VNone
             (POST_extract_text (Some ("notes.txt", "again"))) example_tasks.finished).
    split; [|split].
    + intros coll docs doc field Hcoll Hdoc.
      assert (coll = "Tasks" ∧ docs = [example_tasks.finished_task]) as [-> ->].
      { destruct (decide (coll = "Tasks")) as [->|Hne].
        - split; [done|]. vm_compute in Hcoll. by injection Hcoll as <-.
        - exfalso. change (db example_tasks.finished)
            with (<["Tasks" := [example_tasks.finished_task]]> (∅ : gmap string (list document)))
            in Hcoll.
          rewrite lookup_insert_ne in Hcoll by done. by rewrite lookup_empty in Hcoll. }
      apply list_elem_of_singleton in Hdoc as ->.
      unfold matches.
      destruct (fields example_tasks.finished_task !! field) as [v|] eqn:Hfield; [|done].
      unfold example_tasks.finished_task, example_tasks.task, completed, task_document
        in Hfield. simpl in Hfield.
      apply lookup_union_Some_raw in Hfield as [Hfield|[_ Hfield]];
        repeat (apply lookup_insert_Some in Hfield as [[_ <-]|[_ Hfield]]; [done|]);
        try (apply lookup_singleton_Some in Hfield as [_ <-]; done).
    + reflexivity.
    + intros j Hj. vm_compute in Hj. by apply elem_of_nil in Hj.
  - exact finished_find.
  - vm_compute. reflexivity.
Defined.

Lemma task_status_is_processing_or_completed_witness :
  let answer :=
    (app (lax := example.strict) (api := example.api) "u" VNone (GET_tasks "t1")
       example_tasks.accepted).1 in
  (List.find (matches "t_id" "t1") (collection "Tasks" example_tasks.accepted) = None
   ∧ answer = Raise (HTTPException 404 "Task not found"))
  ∨ ∃ status, status ∈ ["processing"; "completed"]
              ∧ answer = Ok (JSONResponse (VDict (CustomStandard.response 200 "success"
                              "Task status retrieved"
                              (VDict {[ "status" := VStr status ]})))).
Proof.
  exact (task_status_is_processing_or_completed (lax := example.strict)
           (api := example.api) "u" VNone "t1" example_tasks.accepted
           accepted_reachable).
Defined.
